(** * Live-session meeting rooms: authorization, status updates and Agora tokens

    A shallow embedding of the server actions [createMeetingRoom],
    [getMeetingRoom], [updateSessionStatus] and [generateAgoraToken], and the
    properties of the session-to-room core checked against them.

    The actions are asynchronous TypeScript functions that read the request's
    authentication session, the [liveSession] table, the process environment
    and the wall clock, and that finish by returning a value, by throwing an
    [Error] or by redirecting.  They are embedded as state-passing functions
    over a [World] whose result is an [Outcome]. *)

From Stdlib Require Import ZArith String.
From stdpp Require Import base option gmap strings pretty.
From Stdlib Require Import Ascii.
From stdpp Require Import sorting.

Local Open Scope Z_scope.
Local Open Scope string_scope.

(** ** Data model *)

(** Modelled from the spec: the Prisma schema that declares the status column
    of [liveSession] is not among the sources; the data model of the spec
    lists the three values below. *)
Inductive SessionStatus : Type :=
  | scheduled
  | in_progress
  | completed.

#[global] Instance SessionStatus_eq_dec : EqDecision SessionStatus.
Proof. solve_decision. Defined.

(** The parameter type ["in_progress" | "completed"] of [updateSessionStatus]. *)
Inductive TargetStatus : Type :=
  | to_in_progress
  | to_completed.

#[global] Instance TargetStatus_eq_dec : EqDecision TargetStatus.
Proof. solve_decision. Defined.

Definition status_of (t : TargetStatus) : SessionStatus :=
  match t with
  | to_in_progress => in_progress
  | to_completed => completed
  end.

(** Position of a status along scheduled -> in_progress -> completed. *)
Definition status_rank (s : SessionStatus) : Z :=
  match s with
  | scheduled => 0
  | in_progress => 1
  | completed => 2
  end.

(** A user row as far as the actions read it; [name] may be null. *)
Record User : Type := mkUser {
  user_name : option string
}.

(** The [teacher] relation with its [user] included. *)
Record Teacher : Type := mkTeacher {
  userId : string;
  user : User
}.

(** A [liveSession] row with the relations the queries include.  Dates are
    milliseconds since the epoch; a nullable column is an [option]. *)
Record LiveSession : Type := mkLiveSession {
  id : string;
  teacherId : string;
  teacher : Teacher;
  studentId : option string;
  student : option User;
  title : option string;
  scheduledAt : Z;
  duration : Z;
  status : SessionStatus;
  actualStartTime : option Z;
  actualEndTime : option Z
}.

(** What [auth.api.getSession] resolves to when somebody is signed in. *)
Record AuthSession : Type := mkAuthSession {
  auth_user_id : string
}.

(** [RtcRole] of the package agora-access-token. *)
Inductive RtcRole : Type :=
  | PUBLISHER
  | SUBSCRIBER.

(** The package agora-access-token is an external dependency.  Its token
    builder is taken as given: from the application id, the application
    certificate, the channel name, the account, the role and the privilege
    expiry in seconds, and from whatever it draws by itself (a random salt),
    it produces a token, or throws ([None]). *)
Record AgoraAccessToken : Type := mkAgoraAccessToken {
  buildTokenWithAccount :
    string -> string -> string -> string -> RtcRole -> Z -> Z -> option string
}.

(** Everything the actions can observe or change. *)
Record World : Type := mkWorld {
  db : gmap string LiveSession;        (* the liveSession table, by id *)
  auth : option AuthSession;           (* the session of the current request *)
  process_env : gmap string string;    (* process.env *)
  clock : Z;                           (* Date.now(), in milliseconds *)
  entropy : Z;                         (* what an external library draws by itself *)
  agora_module : option AgoraAccessToken (* import('agora-access-token') *)
}.

Definition with_db (w : World) (d : gmap string LiveSession) : World :=
  {| db := d; auth := auth w; process_env := process_env w;
     clock := clock w; entropy := entropy w; agora_module := agora_module w |}.

(** ** Outcomes and the action monad *)

Inductive Outcome (A : Type) : Type :=
  | Ok (a : A)
  | Throw (message : string)
  | Redirect (path : string).

Arguments Ok {A} a.
Arguments Throw {A} message.
Arguments Redirect {A} path.

Definition Action (A : Type) : Type := World -> Outcome A * World.

Definition ret {A} (a : A) : Action A := fun w => (Ok a, w).

Definition bind {A B} (m : Action A) (k : A -> Action B) : Action B :=
  fun w =>
    match m w with
    | (Ok a, w') => k a w'
    | (Throw e, w') => (Throw e, w')
    | (Redirect p, w') => (Redirect p, w')
    end.

Definition throw {A} (message : string) : Action A := fun w => (Throw message, w).

(** [redirect] of next/navigation never returns to its caller. *)
Definition redirect {A} (path : string) : Action A := fun w => (Redirect path, w).

(** [try { body } catch (error) { handler }]: only thrown errors are modelled
    as caught, which is all the one use below needs. *)
Definition try_catch {A} (body : Action A) (handler : string -> Action A) : Action A :=
  fun w =>
    match body w with
    | (Throw e, w') => handler e w'
    | r => r
    end.

Declare Scope action_scope.
Delimit Scope action_scope with action.
Notation "x <- m ;; k" := (bind m (fun x => k))
  (at level 100, m at next level, right associativity) : action_scope.
Notation "m ;;; k" := (bind m (fun _ => k))
  (at level 100, right associativity) : action_scope.
Local Open Scope action_scope.

(** ** The collaborators *)

(** [auth.api.getSession({ headers })]. *)
Definition getSession : Action (option AuthSession) := fun w => (Ok (auth w), w).

(** [session?.user?.id]: undefined when there is no session. *)
Definition session_user_id (s : option AuthSession) : option string :=
  auth_user_id <$> s.

(** JavaScript truthiness of a [string | undefined]. *)
Definition truthy (s : option string) : bool :=
  match s with
  | Some v => negb (bool_decide (v = ""))
  | None => false
  end.

(** [prisma.liveSession.findUnique({ where: { id } })]. *)
Definition findUnique (sessionId : string) : Action (option LiveSession) :=
  fun w => (Ok (db w !! sessionId), w).

(** The [data] of an update: a field that is absent is left as it is. *)
Record UpdateData : Type := mkUpdateData {
  data_status : option SessionStatus;
  data_actualStartTime : option Z;
  data_actualEndTime : option Z
}.

Definition apply_data (d : UpdateData) (r : LiveSession) : LiveSession :=
  {| id := id r;
     teacherId := teacherId r;
     teacher := teacher r;
     studentId := studentId r;
     student := student r;
     title := title r;
     scheduledAt := scheduledAt r;
     duration := duration r;
     status := default (status r) (data_status d);
     actualStartTime :=
       match data_actualStartTime d with
       | Some t => Some t
       | None => actualStartTime r
       end;
     actualEndTime :=
       match data_actualEndTime d with
       | Some t => Some t
       | None => actualEndTime r
       end |}.

(** [prisma.liveSession.update({ where: { id }, data })]: rejects when no row
    has that id. *)
Definition update (sessionId : string) (d : UpdateData) : Action LiveSession :=
  fun w =>
    match db w !! sessionId with
    | Some r => (Ok (apply_data d r), with_db w (<[sessionId := apply_data d r]> (db w)))
    | None => (Throw "Record to update not found.", w)
    end.

(** [Date.now()]. *)
Definition Date_now : Action Z := fun w => (Ok (clock w), w).

(** [process.env.NAME]. *)
Definition env_var (name : string) : Action (option string) :=
  fun w => (Ok (process_env w !! name), w).

(** [revalidatePath] only invalidates a page cache, which is outside the
    world modelled here. *)
Definition revalidatePath (path : string) : Action unit := ret tt.

(** [a || b] on a [string | null] with a string default. *)
Definition or_default (s : option string) (d : string) : string :=
  if truthy s then default d s else d.

(** ** createMeetingRoom *)

Record MeetingData : Type := mkMeetingData {
  md_roomId : string;
  md_sessionId : string;
  md_teacherId : string;
  md_studentId : option string;
  md_scheduledStart : Z;
  md_provider : string;
  md_status : string
}.

Definition no_data : UpdateData :=
  {| data_status := None; data_actualStartTime := None; data_actualEndTime := None |}.

Definition createMeetingRoom (sessionId : string) : Action MeetingData :=
  session <- getSession ;;
  match session_user_id session with
  | Some uid =>
    if negb (truthy (Some uid)) then redirect "/sign-in" else
    found <- findUnique sessionId ;;
    match found with
    | None => throw "Session not found"
    | Some liveSession =>
      let isTeacher := bool_decide (userId (teacher liveSession) = uid) in
      let isStudent := bool_decide (studentId liveSession = Some uid) in
      if negb isTeacher && negb isStudent
      then throw "Unauthorized to access this session"
      else
        now <- Date_now ;;
        let meetingRoomId := "room_" +:+ sessionId +:+ "_" +:+ pretty now in
        let meetingData :=
          {| md_roomId := meetingRoomId;
             md_sessionId := sessionId;
             md_teacherId := teacherId liveSession;
             md_studentId := studentId liveSession;
             md_scheduledStart := scheduledAt liveSession;
             md_provider := "agora";
             md_status := "scheduled" |} in
        update sessionId no_data ;;;
        ret meetingData
    end
  | None => redirect "/sign-in"
  end.

(** ** getMeetingRoom *)

Record RoomInfo : Type := mkRoomInfo {
  ri_sessionId : string;
  ri_roomId : string;
  ri_isTeacher : bool;
  ri_isStudent : bool;
  ri_teacherName : option string;
  ri_studentName : string;
  ri_sessionTitle : string;
  ri_scheduledTime : Z;
  ri_duration : Z;
  ri_status : SessionStatus
}.

Definition getMeetingRoom (sessionId : string) : Action RoomInfo :=
  session <- getSession ;;
  match session_user_id session with
  | Some uid =>
    if negb (truthy (Some uid)) then redirect "/sign-in" else
    found <- findUnique sessionId ;;
    match found with
    | None => throw "Session not found"
    | Some liveSession =>
      let isTeacher := bool_decide (userId (teacher liveSession) = uid) in
      let isStudent := bool_decide (studentId liveSession = Some uid) in
      if negb isTeacher && negb isStudent
      then throw "Unauthorized to access this session"
      else
        ret {| ri_sessionId := id liveSession;
               ri_roomId := "room_" +:+ sessionId;
               ri_isTeacher := isTeacher;
               ri_isStudent := isStudent;
               ri_teacherName := user_name (user (teacher liveSession));
               ri_studentName := or_default (student liveSession ≫= user_name) "Student";
               ri_sessionTitle := or_default (title liveSession) "Live Session";
               ri_scheduledTime := scheduledAt liveSession;
               ri_duration := duration liveSession;
               ri_status := status liveSession |}
    end
  | None => redirect "/sign-in"
  end.

(** ** updateSessionStatus *)

Record StatusResult : Type := mkStatusResult {
  success : bool
}.

(** The [data] object literal of the update: [status] always, and one of the
    two timestamps, taken from [new Date()], according to the target. *)
Definition status_data (target : TargetStatus) (now : Z) : UpdateData :=
  {| data_status := Some (status_of target);
     data_actualStartTime :=
       if bool_decide (target = to_in_progress) then Some now else None;
     data_actualEndTime :=
       if bool_decide (target = to_completed) then Some now else None |}.

Definition updateSessionStatus (sessionId : string) (target : TargetStatus)
  : Action StatusResult :=
  session <- getSession ;;
  match session_user_id session with
  | Some uid =>
    if negb (truthy (Some uid)) then redirect "/sign-in" else
    found <- findUnique sessionId ;;
    match found with
    | None => throw "Session not found"
    | Some liveSession =>
      let isTeacher := bool_decide (userId (teacher liveSession) = uid) in
      let isStudent := bool_decide (studentId liveSession = Some uid) in
      if negb isTeacher && negb isStudent
      then throw "Unauthorized to access this session"
      else
        now <- Date_now ;;
        update sessionId (status_data target now) ;;;
        revalidatePath "/dashboard/sessions" ;;;
        ret {| success := true |}
    end
  | None => redirect "/sign-in"
  end.

(** ** generateAgoraToken *)

Record TokenResult : Type := mkTokenResult {
  token : string;
  tr_channelName : string;
  tr_userId : string;
  tr_appId : string
}.

(** [await import('agora-access-token')]: rejects when the package is missing. *)
Definition import_agora : Action AgoraAccessToken :=
  fun w =>
    match agora_module w with
    | Some m => (Ok m, w)
    | None => (Throw "Cannot find module 'agora-access-token'", w)
    end.

(** [RtcTokenBuilder.buildTokenWithAccount(...)]. *)
Definition build_token (m : AgoraAccessToken) (appId appCertificate channelName
    account : string) (role : RtcRole) (privilegeExpiredTs : Z) : Action string :=
  fun w =>
    match buildTokenWithAccount m appId appCertificate channelName account role
            privilegeExpiredTs (entropy w) with
    | Some t => (Ok t, w)
    | None => (Throw "buildTokenWithAccount failed", w)
    end.

Definition expirationTimeInSeconds : Z := 3600.

(** [Math.floor(Date.now() / 1000)]. *)
Definition currentTimestamp (now : Z) : Z := now / 1000.

Definition privilegeExpiredTs (now : Z) : Z :=
  currentTimestamp now + expirationTimeInSeconds.

Definition configuration_error : string := "Video service configuration error".
Definition initialization_error : string := "Failed to initialize video session".

(** The two [console.error] calls write to the log only and are left out. *)
Definition generateAgoraToken (channelName userId : string) : Action TokenResult :=
  appId <- env_var "NEXT_PUBLIC_AGORA_APP_ID" ;;
  appCertificate <- env_var "AGORA_APP_CERTIFICATE" ;;
  match appId, appCertificate with
  | Some a, Some c =>
    if negb (truthy (Some a)) || negb (truthy (Some c))
    then throw configuration_error
    else
      try_catch
        (m <- import_agora ;;
         let role := PUBLISHER in
         now <- Date_now ;;
         tok <- build_token m a c channelName userId role (privilegeExpiredTs now) ;;
         ret {| token := tok;
                tr_channelName := channelName;
                tr_userId := userId;
                tr_appId := a |})
        (fun _ => throw initialization_error)
  | _, _ => throw configuration_error
  end.

(** ** Sequences of status requests *)

(** One call of [updateSessionStatus] as the server receives it: who is
    signed in, when, and the two arguments. *)
Record Request : Type := mkRequest {
  rq_auth : option AuthSession;
  rq_time : Z;
  rq_sessionId : string;
  rq_target : TargetStatus
}.

Definition at_request (w : World) (r : Request) : World :=
  {| db := db w; auth := rq_auth r; process_env := process_env w;
     clock := rq_time r; entropy := entropy w; agora_module := agora_module w |}.

Definition serve (w : World) (r : Request) : Outcome StatusResult * World :=
  updateSessionStatus (rq_sessionId r) (rq_target r) (at_request w r).

Fixpoint serve_all (w : World) (rs : list Request) : World :=
  match rs with
  | [] => w
  | r :: rs' => serve_all (snd (serve w r)) rs'
  end.

(** [join] and [end] as the client issues them. *)
Definition join (who : string) (time : Z) (sessionId : string) : Request :=
  {| rq_auth := Some {| auth_user_id := who |}; rq_time := time;
     rq_sessionId := sessionId; rq_target := to_in_progress |}.

Definition end_call (who : string) (time : Z) (sessionId : string) : Request :=
  {| rq_auth := Some {| auth_user_id := who |}; rq_time := time;
     rq_sessionId := sessionId; rq_target := to_completed |}.

(** The caller is the teacher's user or the student of the session. *)
Definition is_party (uid : string) (s : LiveSession) : Prop :=
  userId (teacher s) = uid \/ studentId s = Some uid.

(** ** A concrete deployment used in the examples *)

Definition S1 : LiveSession :=
  {| id := "S1";
     teacherId := "teacher-profile-1";
     teacher := {| userId := "T"; user := {| user_name := Some "Tara" |} |};
     studentId := Some "L";
     student := Some {| user_name := Some "Liam" |};
     title := Some "Algebra";
     scheduledAt := 1700000000000;
     duration := 60;
     status := scheduled;
     actualStartTime := None;
     actualEndTime := None |}.

Definition S1_in_progress : LiveSession :=
  apply_data {| data_status := Some in_progress;
                data_actualStartTime := Some 1700000000500;
                data_actualEndTime := None |} S1.

Definition S1_completed : LiveSession :=
  apply_data {| data_status := Some completed;
                data_actualStartTime := Some 1700000000500;
                data_actualEndTime := Some 1700003600000 |} S1.

(** A stand-in token builder that makes every argument visible in the token. *)
Definition demo_agora : AgoraAccessToken :=
  {| buildTokenWithAccount := fun appId cert channel account role expiry salt =>
       Some ("006" +:+ appId +:+ ":" +:+ channel +:+ ":" +:+ account +:+ ":"
             +:+ pretty expiry +:+ ":" +:+ pretty salt) |}.

Definition demo_env : gmap string string :=
  <["NEXT_PUBLIC_AGORA_APP_ID" := "app"]> (<["AGORA_APP_CERTIFICATE" := "cert"]> ∅).

Definition demo_world (s : LiveSession) (who : option string) (now : Z) : World :=
  {| db := <["S1" := s]> ∅;
     auth := mkAuthSession <$> who;
     process_env := demo_env;
     clock := now;
     entropy := 7;
     agora_module := Some demo_agora |}.

(** A second session of the same teacher, with another student, and a
    deployment that holds both sessions. *)
Definition S2 : LiveSession :=
  {| id := "S2";
     teacherId := "teacher-profile-1";
     teacher := {| userId := "T"; user := {| user_name := Some "Tara" |} |};
     studentId := Some "M";
     student := Some {| user_name := Some "Mia" |};
     title := None;
     scheduledAt := 1700100000000;
     duration := 45;
     status := scheduled;
     actualStartTime := None;
     actualEndTime := None |}.

Definition demo_world2 (who : option string) (now : Z) : World :=
  {| db := <["S1" := S1]> (<["S2" := S2]> ∅);
     auth := mkAuthSession <$> who;
     process_env := demo_env;
     clock := now;
     entropy := 7;
     agora_module := Some demo_agora |}.

(** What [getMeetingRoom] answers for [S1] to its teacher and to its student. *)
Definition S1_info_T : RoomInfo :=
  {| ri_sessionId := "S1"; ri_roomId := "room_S1"; ri_isTeacher := true;
     ri_isStudent := false; ri_teacherName := Some "Tara";
     ri_studentName := "Liam"; ri_sessionTitle := "Algebra";
     ri_scheduledTime := 1700000000000; ri_duration := 60;
     ri_status := scheduled |}.

Definition S1_info_L : RoomInfo :=
  {| ri_sessionId := "S1"; ri_roomId := "room_S1"; ri_isTeacher := false;
     ri_isStudent := true; ri_teacherName := Some "Tara";
     ri_studentName := "Liam"; ri_sessionTitle := "Algebra";
     ri_scheduledTime := 1700000000000; ri_duration := 60;
     ri_status := scheduled |}.

(** The credential the stand-in builder makes for the teacher of [S1] at
    1700000000123 ms. *)
Definition S1_token_T : TokenResult :=
  {| token := "006app:room_S1:teacher:1700003600:7";
     tr_channelName := "room_S1"; tr_userId := "teacher"; tr_appId := "app" |}.

(** A room id that some call resolves for a session: the [roomId] of a
    successful [createMeetingRoom] or [getMeetingRoom]. *)
Inductive resolves (sessionId : string) (w : World) (room : string) : Prop :=
  | resolves_create (r : MeetingData) :
      fst (createMeetingRoom sessionId w) = Ok r -> md_roomId r = room ->
      resolves sessionId w room
  | resolves_get (r : RoomInfo) :
      fst (getMeetingRoom sessionId w) = Ok r -> ri_roomId r = room ->
      resolves sessionId w room.

(** The same world seen with another session table and another caller. *)
Definition with_sessions (w : World) (d : gmap string LiveSession)
    (a : option AuthSession) : World :=
  {| db := d; auth := a; process_env := process_env w;
     clock := clock w; entropy := entropy w; agora_module := agora_module w |}.

(** The signing material [generateAgoraToken] reads. *)
Definition app_id (w : World) : option string :=
  process_env w !! "NEXT_PUBLIC_AGORA_APP_ID".

Definition app_certificate (w : World) : option string :=
  process_env w !! "AGORA_APP_CERTIFICATE".

Definition signing_material_missing (w : World) : Prop :=
  truthy (app_id w) = false \/ truthy (app_certificate w) = false.

(** What [generateAgoraToken] comes to once the monad is run: a function of
    the two arguments, the environment, the clock, the package and what the
    package draws, and of nothing else in the world. *)
Definition issue (channelName userId : string) (w : World) : Outcome TokenResult :=
  match app_id w, app_certificate w with
  | Some a, Some c =>
    if truthy (Some a) && truthy (Some c) then
      match agora_module w with
      | Some m =>
        match buildTokenWithAccount m a c channelName userId PUBLISHER
                (privilegeExpiredTs (clock w)) (entropy w) with
        | Some tok =>
            Ok {| token := tok; tr_channelName := channelName;
                  tr_userId := userId; tr_appId := a |}
        | None => Throw initialization_error
        end
      | None => Throw initialization_error
      end
    else Throw configuration_error
  | _, _ => Throw configuration_error
  end.

(** The message thrown by the guard of the three session actions. *)
Definition guard_error (found : option LiveSession) : string :=
  match found with
  | None => "Session not found"
  | Some _ => "Unauthorized to access this session"
  end.

(** ** getVideoProviders *)

Record VideoProvider : Type := mkVideoProvider {
  vp_id : string;
  vp_name : string;
  vp_description : string;
  vp_available : bool;
  vp_features : list string
}.

Definition video_providers : list VideoProvider :=
  [ {| vp_id := "agora";
       vp_name := "Agora";
       vp_description := "Real-time video and voice communication";
       vp_available := true;
       vp_features := ["HD Video"; "Screen Share"; "Recording"; "Chat"] |};
    {| vp_id := "zoom";
       vp_name := "Zoom";
       vp_description := "Professional video meetings";
       vp_available := false;
       vp_features := ["HD Video"; "Screen Share"; "Recording"; "Breakout Rooms"] |};
    {| vp_id := "webrtc";
       vp_name := "WebRTC";
       vp_description := "Browser-based video calling";
       vp_available := true;
       vp_features := ["Peer-to-peer"; "No downloads"; "Low latency"] |} ].

Definition getVideoProviders : Action (list VideoProvider) := ret video_providers.

(** ** The video call component *)





(** ** The session form: option tables *)

(** [s.padStart(n, c)] for a one-character filler. *)
Definition padStart (n : nat) (c : ascii) (s : string) : string :=
  string_of_list_ascii (replicate (n - String.length s) c) +:+ s.

Record TimeSlot : Type := mkTimeSlot {
  slot_value : string;
  slot_label : string
}.

(** The callback of [Array.from({ length: 48 }, (_, i) => ...)]. *)
Definition time_slot (i : Z) : TimeSlot :=
  let hour := i / 2 in
  let minute : string := if bool_decide (Z.rem i 2 = 0) then "00" else "30" in
  let displayHour :=
    if bool_decide (hour = 0) then 12
    else if bool_decide (hour > 12) then hour - 12 else hour in
  let ampm : string := if bool_decide (hour < 12) then "AM" else "PM" in
  {| slot_value := padStart 2 "0"%char (pretty hour) +:+ ":" +:+ minute;
     slot_label := pretty displayHour +:+ ":" +:+ minute +:+ " " +:+ ampm |}.

Definition TIME_SLOTS : list TimeSlot := time_slot <$> seqZ 0 48.

Record DurationOption : Type := mkDurationOption {
  do_value : Z;
  do_label : string
}.

Definition DURATIONS : list DurationOption :=
  [ {| do_value := 30; do_label := "30 minutes" |};
    {| do_value := 45; do_label := "45 minutes" |};
    {| do_value := 60; do_label := "1 hour" |};
    {| do_value := 90; do_label := "1.5 hours" |};
    {| do_value := 120; do_label := "2 hours" |} ].

Definition SUBJECTS : list string :=
  [ "Mathematics"; "Physics"; "Chemistry"; "Biology"; "Computer Science";
    "Programming"; "Web Development"; "Data Science"; "English"; "Business";
    "Marketing"; "Design"; "Other" ].

(** [s.split(c)] for a one-character separator: the pieces between the
    separators, one piece more than there are separators. *)
Fixpoint split_on (sep : ascii) (s : string) : list string :=
  match s with
  | EmptyString => [EmptyString]
  | String c s' =>
    if bool_decide (c = sep) then EmptyString :: split_on sep s'
    else
      match split_on sep s' with
      | piece :: rest => String c piece :: rest
      | [] => [String c EmptyString]
      end
  end.

Definition digit_of (c : ascii) : option Z :=
  let n := Z.of_N (N_of_ascii c) in
  if bool_decide (48 <= n <= 57) then Some (n - 48) else None.

Fixpoint digits_value (acc : Z) (s : string) : option Z :=
  match s with
  | EmptyString => Some acc
  | String c s' =>
    match digit_of c with
    | Some d => digits_value (10 * acc + d) s'
    | None => None
    end
  end.

(** [Number(s)] for a non-empty string of decimal digits, which is all the
    form passes to it: the value in base ten.  On every other string (signs,
    blanks, fractions, exponents, the empty string) this model is silent
    and gives [None]; it does not follow JavaScript there, where for
    instance [Number("")] is 0.  The properties below use it on the digit
    strings of the option tables only. *)
Definition Number_of_digits (s : string) : option Z :=
  match s with
  | EmptyString => None
  | _ => digits_value 0 s
  end.

(** [const [hours, minutes] = scheduledTime.split(':').map(Number)]. *)
Definition hours_minutes (scheduledTime : string) : option Z * option Z :=
  match Number_of_digits <$> split_on ":"%char scheduledTime with
  | h :: m :: _ => (h, m)
  | [h] => (h, None)
  | [] => (None, None)
  end.

(** The bounds [sessionSchema] puts on [duration], [subject] and [title]:
    [z.number().min(15).max(180)], [z.string().min(2)], [z.string().min(5)]. *)
Definition duration_ok (d : Z) : bool := bool_decide (15 <= d) && bool_decide (d <= 180).
Definition subject_ok (s : string) : bool := bool_decide (2 <= String.length s)%nat.
Definition title_ok (s : string) : bool := bool_decide (5 <= String.length s)%nat.

(** ** The session form: onSubmit *)

Inductive SessionType : Type :=
  | specific
  | available.

#[global] Instance SessionType_eq_dec : EqDecision SessionType.
Proof. solve_decision. Defined.

Inductive Submission (Body : Type) : Type :=
  | toast_error (message : string)
  | post_session (body : Body).

Arguments toast_error {Body} message.
Arguments post_session {Body} body.

Section SessionForm.

(** JavaScript [Date] objects and doubles are kept abstract, with the two
    computations [onSubmit] makes on them:
    [iso_at date hours minutes] is the [toISOString()] of a copy of
    [date] after [setHours(hours, minutes, 0, 0)], and [to_cents price] is
    [Math.round(price * 100)]. *)
Variable Date : Type.
Variable number : Type.
Variable iso_at : Date -> option Z -> option Z -> string.
Variable to_cents : number -> number.

Record SessionFormData : Type := mkSessionFormData {
  fd_title : string;
  fd_description : option string;
  fd_subject : string;
  fd_sessionType : SessionType;
  fd_scheduledDate : option Date;
  fd_scheduledTime : option string;
  fd_duration : number;
  fd_price : number;
  fd_timezone : string
}.

(** The JSON body posted to /api/teacher/sessions. *)
Record SessionRequest : Type := mkSessionRequest {
  sr_title : string;
  sr_description : option string;
  sr_subject : string;
  sr_scheduledAt : option string;
  sr_duration : number;
  sr_price : number;
  sr_timezone : string;
  sr_isAvailableSlot : bool
}.

(** [onSubmit] up to its [fetch]: either the toast that ends it early or
    the body it posts.  This follows the code when the chosen time is
    absent, empty or one of the values of [TIME_SLOTS], which are the only
    ones the select can set.  For other time strings the code may end in
    its [catch] (when [toISOString] throws on an invalid date) or read the
    pieces differently from [Number_of_digits]; those inputs are outside
    this model, and the properties below do not range over them. *)
Definition onSubmit (data : SessionFormData) : Submission SessionRequest :=
  if bool_decide (fd_sessionType data = specific)
     && (negb (bool_decide (is_Some (fd_scheduledDate data)))
         || negb (truthy (fd_scheduledTime data)))
  then toast_error "Please select date and time for the session"
  else
    let scheduledAt :=
      match fd_sessionType data, fd_scheduledDate data, fd_scheduledTime data with
      | specific, Some date, Some time =>
        if truthy (Some time)
        then let '(hours, minutes) := hours_minutes time in
             Some (iso_at date hours minutes)
        else None
      | _, _, _ => None
      end in
    post_session
      {| sr_title := fd_title data;
         sr_description := fd_description data;
         sr_subject := fd_subject data;
         sr_scheduledAt := scheduledAt;
         sr_duration := fd_duration data;
         sr_price := to_cents (fd_price data);
         sr_timezone := fd_timezone data;
         sr_isAvailableSlot := bool_decide (fd_sessionType data = available) |}.

End SessionForm.

Arguments fd_title {Date number} _.
Arguments fd_description {Date number} _.
Arguments fd_subject {Date number} _.
Arguments fd_sessionType {Date number} _.
Arguments fd_scheduledDate {Date number} _.
Arguments fd_scheduledTime {Date number} _.
Arguments fd_duration {Date number} _.
Arguments fd_price {Date number} _.
Arguments fd_timezone {Date number} _.
Arguments sr_scheduledAt {number} _.
Arguments sr_isAvailableSlot {number} _.
Arguments sr_price {number} _.
Arguments onSubmit {Date number} iso_at to_cents data.

(** ** The assistant chat route *)

(** The rows of [aiConversation] and [aiMessage] as far as the route reads
    and writes them; a conversation is kept under its id.  The schema is not
    among the sources: that a new conversation gets the current time as
    [updatedAt] is how an automatically maintained column behaves, and no
    property below rests on it. *)
Record AiConversation : Type := mkAiConversation {
  ac_userId : string;
  ac_title : string;
  ac_updatedAt : Z
}.

Record AiMessage : Type := mkAiMessage {
  am_conversationId : string;
  am_role : string;
  am_content : string
}.

Record ChatStore : Type := mkChatStore {
  conversations : gmap string AiConversation;
  chat_messages : list AiMessage          (* in order of creation *)
}.

(** What a request meets besides the tables: who is signed in, the clock,
    the id the database will give the next conversation, and Gemini, which
    from the history and the message gives a text ([inl]) or throws
    ([inr], with the error's message). *)
Record ChatEnv : Type := mkChatEnv {
  chat_session : option AuthSession;
  chat_now : Z;
  chat_next_id : string;
  sendMessage : list (string * string) -> string -> string + string
}.

(** The fields [POST] takes from the request's JSON. *)
Record ChatBody : Type := mkChatBody {
  cb_message : option string;
  cb_conversationId : option string
}.

Inductive ChatJson : Type :=
  | json_error (error : string) (details : option string)
  | json_reply (response : string) (conversationId : string)
  | json_conversation (found : option (string * AiConversation * list AiMessage))
  | json_conversations (list : list (string * AiConversation)).

Record Response : Type := mkResponse {
  resp_status : Z;
  resp_json : ChatJson
}.

(** [include: { messages: { orderBy: { createdAt: 'asc' } } }]. *)
Definition messages_of (conversationId : string) (st : ChatStore) : list AiMessage :=
  filter (fun m => am_conversationId m = conversationId) (chat_messages st).

(** The history handed to Gemini: each stored message with its role
    normalised to 'user' or 'model'. *)
Definition history_of (ms : list AiMessage) : list (string * string) :=
  (fun m => (if bool_decide (am_role m = "user") then "user" else "model",
             am_content m)) <$> ms.

(** [message.substring(0, 30) + "..."].  JavaScript counts UTF-16 code
    units and this definition counts the characters of the Rocq string; the
    two agree on messages made of ASCII characters, which is where the
    title is used below. *)
Definition conversation_title (message : string) : string :=
  String.substring 0 30 message +:+ "...".

Definition ascii_only (s : string) : bool :=
  forallb (fun c => (N_of_ascii c <? 128)%N) (list_ascii_of_string s).

Definition failed (details : string) : Response :=
  {| resp_status := 500;
     resp_json := json_error "Failed to process request" (Some details) |}.

(** Steps 3 to 5 of [POST]: ask Gemini, then store the user message and the
    answer in one transaction. *)
Definition answer (env : ChatEnv) (conversationId message : string)
    (st : ChatStore) : Response * ChatStore :=
  match sendMessage env (history_of (messages_of conversationId st)) message with
  | inr details => (failed details, st)
  | inl text =>
    ({| resp_status := 200; resp_json := json_reply text conversationId |},
     {| conversations := conversations st;
        chat_messages :=
          chat_messages st ++
            [ {| am_conversationId := conversationId; am_role := "user";
                 am_content := message |};
              {| am_conversationId := conversationId; am_role := "model";
                 am_content := text |} ] |})
  end.

(** [POST]: [json] is what [req.json()] gives, the body or the message of
    the error it throws.  Every throw inside the [try] ends in the 500
    response of the [catch].  Database failures other than a taken id are
    not modelled. *)
Definition POST (env : ChatEnv) (json : ChatBody + string) (st : ChatStore)
  : Response * ChatStore :=
  match chat_session env with
  | None =>
    ({| resp_status := 401; resp_json := json_error "Unauthorized" None |}, st)
  | Some session =>
    match json with
    | inr details => (failed details, st)
    | inl body =>
      match cb_message body with
      | Some message =>
        if negb (truthy (Some message))
        then ({| resp_status := 400;
                 resp_json := json_error "Message is required" None |}, st)
        else
          let found :=
            if truthy (cb_conversationId body)
            then cb_conversationId body ≫= fun cid =>
                   (fun c => (cid, c)) <$> conversations st !! cid
            else None in
          match found with
          | Some (cid, conversation) =>
            if bool_decide (ac_userId conversation <> auth_user_id session)
            then ({| resp_status := 403;
                     resp_json := json_error "Unauthorized access to conversation" None |},
                  st)
            else answer env cid message st
          | None =>
            match conversations st !! chat_next_id env with
            | Some _ => (failed "Unique constraint failed on the fields: (`id`)", st)
            | None =>
              answer env (chat_next_id env) message
                {| conversations :=
                     <[chat_next_id env :=
                         {| ac_userId := auth_user_id session;
                            ac_title := conversation_title message;
                            ac_updatedAt := chat_now env |}]> (conversations st);
                   chat_messages := chat_messages st |}
            end
          end
      | None =>
        ({| resp_status := 400;
            resp_json := json_error "Message is required" None |}, st)
      end
    end
  end.

(** [orderBy: { updatedAt: 'desc' }]: a row comes before the rows that were
    updated no later.  Among rows with the same [updatedAt] the database is
    free to choose; the sort used here keeps one order. *)
Definition newer_first (a b : string * AiConversation) : Prop :=
  ac_updatedAt (snd b) <= ac_updatedAt (snd a).

#[global] Instance newer_first_dec : RelDecision newer_first.
Proof. intros a b. unfold newer_first. apply _. Defined.

(** [findMany({ where: { userId }, orderBy: { updatedAt: 'desc' }, take: 10 })]. *)
Definition findMany (userId : string) (st : ChatStore)
  : list (string * AiConversation) :=
  take 10 (merge_sort newer_first
             (filter (fun p => ac_userId (snd p) = userId)
                     (map_to_list (conversations st)))).

(** [GET]: [conversationId] is [searchParams.get("conversationId")].  It
    only reads the tables; a failing database (the 500 of its [catch]) is
    not modelled. *)
Definition GET (env : ChatEnv) (conversationId : option string) (st : ChatStore)
  : Response :=
  match chat_session env with
  | None => {| resp_status := 401; resp_json := json_conversations [] |}
  | Some session =>
    if truthy conversationId then
      match conversationId ≫= fun cid =>
              (fun c => (cid, c)) <$> conversations st !! cid with
      | Some (cid, conversation) =>
        if bool_decide (ac_userId conversation <> auth_user_id session)
        then {| resp_status := 403; resp_json := json_error "Unauthorized" None |}
        else {| resp_status := 200;
                resp_json :=
                  json_conversation (Some (cid, conversation, messages_of cid st)) |}
      | None => {| resp_status := 200; resp_json := json_conversation None |}
      end
    else
      {| resp_status := 200;
         resp_json := json_conversations (findMany (auth_user_id session) st) |}
  end.

(** A chat deployment used in the examples: Ana owns [c1], Bob owns [c2],
    and Gemini answers every message with "Hi". *)
Definition demo_chat : ChatStore :=
  {| conversations :=
       <["c1" := {| ac_userId := "ana"; ac_title := "Fractions..."; ac_updatedAt := 10 |}]>
       (<["c2" := {| ac_userId := "bob"; ac_title := "Verbs..."; ac_updatedAt := 20 |}]> ∅);
     chat_messages :=
       [ {| am_conversationId := "c1"; am_role := "user"; am_content := "Fractions" |};
         {| am_conversationId := "c1"; am_role := "model"; am_content := "Sure" |};
         {| am_conversationId := "c2"; am_role := "user"; am_content := "Verbs" |} ] |}.

Definition demo_chat_env (who : option string) (works : bool) : ChatEnv :=
  {| chat_session := mkAuthSession <$> who;
     chat_now := 30;
     chat_next_id := "c3";
     sendMessage := fun _ _ => if works then inl "Hi" else inr "503 Service Unavailable" |}.

(** The lookup [POST] makes for the conversation the request names. *)
Definition named_conversation (body : ChatBody) (st : ChatStore)
  : option (string * AiConversation) :=
  if truthy (cb_conversationId body)
  then cb_conversationId body ≫= fun cid =>
         (fun c => (cid, c)) <$> conversations st !! cid
  else None.

(** * Properties *)

(** ** How the actions run *)

Ltac run :=
  unfold bind, ret, throw, redirect, try_catch, getSession, findUnique,
    Date_now, env_var, revalidatePath, import_agora, build_token,
    session_user_id, update; simpl.

Lemma truthy_Some (v : string) : v <> "" -> truthy (Some v) = true.
Proof. intros Hv. unfold truthy. by rewrite bool_decide_eq_false_2. Qed.

Lemma party_spec (uid : string) (r : LiveSession) :
  is_party uid r <->
  negb (bool_decide (userId (teacher r) = uid))
    && negb (bool_decide (studentId r = Some uid)) = false.
Proof.
  unfold is_party.
  destruct (decide (userId (teacher r) = uid)) as [Ht|Ht];
    destruct (decide (studentId r = Some uid)) as [Hs|Hs].
  - rewrite !bool_decide_eq_true_2 by done. simpl. tauto.
  - rewrite bool_decide_eq_true_2 by done. simpl. tauto.
  - rewrite bool_decide_eq_false_2, bool_decide_eq_true_2 by done. simpl. tauto.
  - rewrite !bool_decide_eq_false_2 by done. simpl.
    split; [tauto | discriminate].
Qed.

(** A signed-in party: the row is rewritten with the target status and the
    matching timestamp, whatever the row held before. *)
Lemma updateSessionStatus_party w sid t uid r :
  auth w = Some (mkAuthSession uid) -> uid <> "" ->
  db w !! sid = Some r -> is_party uid r ->
  updateSessionStatus sid t w =
    (Ok {| success := true |},
     with_db w (<[sid := apply_data (status_data t (clock w)) r]> (db w))).
Proof.
  intros Hauth Huid Hr Hp. apply party_spec in Hp.
  unfold updateSessionStatus. run. rewrite Hauth. simpl.
  rewrite bool_decide_eq_false_2 by done. simpl.
  rewrite Hr, Hp. simpl. by rewrite Hr.
Qed.

(** A signed-in caller who is no party, or an unknown session: the guard
    throws before anything is written. *)
Lemma updateSessionStatus_rejected w sid t uid :
  auth w = Some (mkAuthSession uid) -> uid <> "" ->
  (forall r, db w !! sid = Some r -> ~ is_party uid r) ->
  updateSessionStatus sid t w = (Throw (guard_error (db w !! sid)), w).
Proof.
  intros Hauth Huid Hnp.
  unfold updateSessionStatus. run. rewrite Hauth. simpl.
  rewrite bool_decide_eq_false_2 by done. simpl.
  destruct (db w !! sid) as [r|] eqn:Hr; [|done].
  specialize (Hnp r eq_refl). rewrite party_spec in Hnp.
  apply not_false_is_true in Hnp. by rewrite Hnp.
Qed.

Lemma getMeetingRoom_rejected w sid uid :
  auth w = Some (mkAuthSession uid) -> uid <> "" ->
  (forall r, db w !! sid = Some r -> ~ is_party uid r) ->
  getMeetingRoom sid w = (Throw (guard_error (db w !! sid)), w).
Proof.
  intros Hauth Huid Hnp.
  unfold getMeetingRoom. run. rewrite Hauth. simpl.
  rewrite bool_decide_eq_false_2 by done. simpl.
  destruct (db w !! sid) as [r|] eqn:Hr; [|done].
  specialize (Hnp r eq_refl). rewrite party_spec in Hnp.
  apply not_false_is_true in Hnp. by rewrite Hnp.
Qed.

(** What a successful [getMeetingRoom] has gone through. *)
Lemma getMeetingRoom_Ok w sid info w' :
  getMeetingRoom sid w = (Ok info, w') ->
  exists uid r,
    auth w = Some (mkAuthSession uid) /\ db w !! sid = Some r /\
    is_party uid r /\ w' = w /\
    ri_roomId info = "room_" +:+ sid /\
    ri_isTeacher info = bool_decide (userId (teacher r) = uid) /\
    ri_isStudent info = bool_decide (studentId r = Some uid).
Proof.
  unfold getMeetingRoom. run.
  destruct (auth w) as [[uid]|] eqn:Hauth; simpl; [|done].
  case_bool_decide; simpl; [done|].
  destruct (db w !! sid) as [r|] eqn:Hr; [|done].
  destruct (negb _ && negb _) eqn:Hg; [done|].
  intros [= Hinfo Hw]. subst info w'. exists uid, r. simpl.
  split_and!; try done. by apply party_spec.
Qed.

Lemma createMeetingRoom_Ok w sid data w' :
  createMeetingRoom sid w = (Ok data, w') ->
  md_roomId data = "room_" +:+ sid +:+ "_" +:+ pretty (clock w).
Proof.
  unfold createMeetingRoom. run.
  destruct (auth w) as [[uid]|] eqn:Hauth; simpl; [|done].
  case_bool_decide; simpl; [done|].
  destruct (db w !! sid) as [r|] eqn:Hr; [|done].
  destruct (negb _ && negb _) eqn:Hg; [done|].
  rewrite Hr. by intros [= <- <-].
Qed.

(** X25: two rooms created for one session carry the same id only when they
    were created in the same millisecond. *)
Lemma createMeetingRoom_room_id_follows_clock sid w1 w2 d1 d2 :
  fst (createMeetingRoom sid w1) = Ok d1 ->
  fst (createMeetingRoom sid w2) = Ok d2 ->
  md_roomId d1 = md_roomId d2 <-> clock w1 = clock w2.
Proof.
  intros H1 H2.
  destruct (createMeetingRoom sid w1) as [o1 w1'] eqn:E1.
  destruct (createMeetingRoom sid w2) as [o2 w2'] eqn:E2.
  simpl in *. subst o1 o2.
  apply createMeetingRoom_Ok in E1. apply createMeetingRoom_Ok in E2.
  rewrite E1, E2. split; [|by intros ->].
  intros Heq.
  apply (inj (String.append "room_")), (inj (String.append sid)),
    (inj (String.append "_")) in Heq.
  by apply (inj pretty) in Heq.
Qed.

(** The table after one call is the table before, or the table before with
    the addressed row rewritten by the call's [data]. *)
Lemma updateSessionStatus_db w sid t :
  db (snd (updateSessionStatus sid t w)) = db w \/
  exists r, db w !! sid = Some r /\
    db (snd (updateSessionStatus sid t w)) =
      <[sid := apply_data (status_data t (clock w)) r]> (db w).
Proof.
  unfold updateSessionStatus. run.
  destruct (auth w) as [[uid]|]; simpl; [|by left].
  case_bool_decide; simpl; [by left|].
  destruct (db w !! sid) as [r|] eqn:Hr; [|by left].
  destruct (negb _ && negb _); [by left|].
  rewrite Hr. simpl. right. by exists r.
Qed.

(** A call that succeeds was made by a signed-in party of an existing
    session, and has rewritten that session's row with the call's [data]. *)
Lemma updateSessionStatus_Ok w sid t res w' :
  updateSessionStatus sid t w = (Ok res, w') ->
  exists uid r,
    auth w = Some (mkAuthSession uid) /\ uid <> "" /\
    db w !! sid = Some r /\ is_party uid r /\
    res = {| success := true |} /\
    w' = with_db w (<[sid := apply_data (status_data t (clock w)) r]> (db w)).
Proof.
  unfold updateSessionStatus. run.
  destruct (auth w) as [[uid]|] eqn:Hauth; simpl; [|done].
  case_bool_decide as Hu; simpl; [done|].
  destruct (db w !! sid) as [r|] eqn:Hr; [|done].
  destruct (negb _ && negb _) eqn:Hg; [done|].
  rewrite Hr. simpl. intros [= Hres Hw]. subst res w'.
  exists uid, r. split_and!; try done. by apply party_spec.
Qed.

(** A signed-in party is let through by [getMeetingRoom] and told its role. *)
Lemma getMeetingRoom_party w sid uid r :
  auth w = Some (mkAuthSession uid) -> uid <> "" ->
  db w !! sid = Some r -> is_party uid r ->
  exists info,
    getMeetingRoom sid w = (Ok info, w) /\
    ri_isTeacher info = bool_decide (userId (teacher r) = uid) /\
    ri_isStudent info = bool_decide (studentId r = Some uid).
Proof.
  intros Hauth Huid Hr Hp. apply party_spec in Hp.
  unfold getMeetingRoom. run. rewrite Hauth. simpl.
  rewrite bool_decide_eq_false_2 by done. simpl.
  rewrite Hr, Hp. eexists. split; [reflexivity|]. done.
Qed.

(** ** The room identifier *)

(** C1, as stated, fails: the two calls below resolve a room for the same
    session, [createMeetingRoom] for the teacher at 1700000000123 ms and
    [getMeetingRoom] for the student, and the first returns
    [room_S1_1700000000123] where the second returns [room_S1]. *)
Lemma room_id_not_shared_by_create_and_get :
  ~ (forall sid w1 w2 c1 c2,
       resolves sid w1 c1 -> resolves sid w2 c2 -> c1 = c2).
Proof.
  intros H.
  specialize (H "S1" (demo_world S1 (Some "T") 1700000000123)
                (demo_world S1 (Some "L") 1700000000999)
                "room_S1_1700000000123" "room_S1").
  assert (Hne : "room_S1_1700000000123" <> "room_S1") by discriminate.
  apply Hne, H.
  - eapply resolves_create; [vm_compute; reflexivity | reflexivity].
  - eapply resolves_get; [vm_compute; reflexivity | reflexivity].
Qed.

(** C1, amended: the room id of [getMeetingRoom] is [room_<sessionId>], a
    function of the session id alone, so two successful calls for the same
    session id return the identical room id whatever the caller, the table
    and the call time; the room id of [createMeetingRoom] is
    [room_<sessionId>_<Date.now()>] and carries the call time. *)
Theorem getMeetingRoom_room_id_deterministic sid w1 w2 r1 r2 :
  fst (getMeetingRoom sid w1) = Ok r1 ->
  fst (getMeetingRoom sid w2) = Ok r2 ->
  ri_roomId r1 = "room_" +:+ sid /\
  ri_roomId r1 = ri_roomId r2 /\
  (forall w data, fst (createMeetingRoom sid w) = Ok data ->
     md_roomId data = "room_" +:+ sid +:+ "_" +:+ pretty (clock w)).
Proof.
  intros H1 H2.
  destruct (getMeetingRoom sid w1) as [o1 w1'] eqn:E1.
  destruct (getMeetingRoom sid w2) as [o2 w2'] eqn:E2.
  simpl in *. subst o1 o2.
  apply getMeetingRoom_Ok in E1 as (? & ? & _ & _ & _ & _ & Hr1 & _).
  apply getMeetingRoom_Ok in E2 as (? & ? & _ & _ & _ & _ & Hr2 & _).
  split_and!; [done | congruence |].
  intros w data Hc.
  destruct (createMeetingRoom sid w) as [o w'] eqn:E. simpl in Hc. subst o.
  by apply createMeetingRoom_Ok in E.
Qed.

Lemma getMeetingRoom_room_id_deterministic_witness :
  fst (getMeetingRoom "S1" (demo_world S1 (Some "T") 1700000000123)) = Ok S1_info_T /\
  fst (getMeetingRoom "S1" (demo_world S1 (Some "L") 1700000000999)) = Ok S1_info_L /\
  ri_roomId S1_info_T = "room_S1" /\
  ri_roomId S1_info_T = ri_roomId S1_info_L.
Proof.
  assert (H1 : fst (getMeetingRoom "S1" (demo_world S1 (Some "T") 1700000000123))
               = Ok S1_info_T) by (vm_compute; reflexivity).
  assert (H2 : fst (getMeetingRoom "S1" (demo_world S1 (Some "L") 1700000000999))
               = Ok S1_info_L) by (vm_compute; reflexivity).
  destruct (getMeetingRoom_room_id_deterministic _ _ _ _ _ H1 H2) as (Ha & Hb & _).
  split_and!; [exact H1 | exact H2 | exact Ha | exact Hb].
Defined.

(** ** Status updates *)

Lemma serve_party w rq uid r :
  rq_auth rq = Some (mkAuthSession uid) -> uid <> "" ->
  db w !! rq_sessionId rq = Some r -> is_party uid r ->
  serve w rq =
    (Ok {| success := true |},
     with_db (at_request w rq)
       (<[rq_sessionId rq := apply_data (status_data (rq_target rq) (rq_time rq)) r]>
          (db w))).
Proof.
  intros Ha Hu Hr Hp. unfold serve.
  by rewrite (updateSessionStatus_party _ _ _ uid r).
Qed.

Lemma serve_db w rq :
  db (snd (serve w rq)) = db w \/
  exists r, db w !! rq_sessionId rq = Some r /\
    db (snd (serve w rq)) =
      <[rq_sessionId rq := apply_data (status_data (rq_target rq) (rq_time rq)) r]>
        (db w).
Proof.
  unfold serve.
  apply (updateSessionStatus_db (at_request w rq) (rq_sessionId rq) (rq_target rq)).
Qed.

Lemma status_data_status t now r :
  status (apply_data (status_data t now) r) = status_of t.
Proof. done. Qed.

(** C2, as stated, fails: [S1] is completed and its teacher [T] asks for
    in_progress at 1700003700000 ms; the call returns [{ success: true }] and
    the row goes back to in_progress with a new actual start time. *)
Lemma join_completed_is_not_rejected :
  ~ (forall w sid uid r,
       auth w = Some (mkAuthSession uid) -> uid <> "" ->
       db w !! sid = Some r -> is_party uid r -> status r = completed ->
       (exists e, fst (updateSessionStatus sid to_in_progress w) = Throw e) /\
       db (snd (updateSessionStatus sid to_in_progress w)) = db w).
Proof.
  intros H.
  destruct (H (demo_world S1_completed (Some "T") 1700003700000) "S1" "T"
              S1_completed) as [[e He] _];
    [reflexivity | discriminate | vm_compute; reflexivity
    | left; reflexivity | reflexivity |].
  vm_compute in He. discriminate He.
Qed.

(** C2, amended: for a session whose status is completed, a join request by
    either party succeeds: it returns [{ success: true }], sets the status
    back to in_progress and overwrites the actual start time with the time
    of the call; the code has no SessionEnded failure. *)
Theorem join_completed_reopens w sid uid r :
  auth w = Some (mkAuthSession uid) -> uid <> "" ->
  db w !! sid = Some r -> is_party uid r -> status r = completed ->
  fst (updateSessionStatus sid to_in_progress w) = Ok {| success := true |} /\
  exists r', db (snd (updateSessionStatus sid to_in_progress w)) !! sid = Some r' /\
    status r' = in_progress /\
    actualStartTime r' = Some (clock w) /\
    actualEndTime r' = actualEndTime r.
Proof.
  intros Ha Hu Hr Hp _.
  rewrite (updateSessionStatus_party _ _ _ uid r) by done. simpl.
  split; [done|]. eexists. split; [apply lookup_insert_eq|]. done.
Qed.

Lemma join_completed_reopens_witness :
  fst (updateSessionStatus "S1" to_in_progress
         (demo_world S1_completed (Some "T") 1700003700000))
    = Ok {| success := true |} /\
  exists r',
    db (snd (updateSessionStatus "S1" to_in_progress
               (demo_world S1_completed (Some "T") 1700003700000))) !! "S1"
      = Some r' /\
    status r' = in_progress /\
    actualStartTime r' = Some 1700003700000 /\
    actualEndTime r' = Some 1700003600000.
Proof.
  apply (join_completed_reopens
           (demo_world S1_completed (Some "T") 1700003700000) "S1" "T" S1_completed).
  - reflexivity.
  - discriminate.
  - vm_compute. reflexivity.
  - left. reflexivity.
  - reflexivity.
Defined.

(** C3, as stated, fails: [S1] is in progress since 1700000000500 ms and its
    student [L] joins at 1700000060000 ms; the call succeeds and the actual
    start time becomes 1700000060000. *)
Lemma second_join_overwrites_start_time :
  ~ (forall w sid uid t r,
       db w !! sid = Some r -> uid <> "" -> is_party uid r ->
       status r = in_progress ->
       fst (serve w (join uid t sid)) = Ok {| success := true |} /\
       actualStartTime <$> (db (snd (serve w (join uid t sid))) !! sid)
         = Some (actualStartTime r)).
Proof.
  intros H.
  destruct (H (demo_world S1_in_progress None 0) "S1" "L" 1700000060000
              S1_in_progress) as [_ Hs];
    [vm_compute; reflexivity | discriminate | right; reflexivity | reflexivity |].
  vm_compute in Hs. discriminate Hs.
Qed.

(** C3, amended: every successful join writes the actual start time: a join
    by a party sets the status to in_progress and the actual start time to
    the time of that call, whatever the row held, so of two successive joins
    both succeed and the second one's time is the one that stays. *)
Theorem join_twice_keeps_last_start_time w sid r uid1 uid2 t1 t2 :
  db w !! sid = Some r ->
  uid1 <> "" -> uid2 <> "" -> is_party uid1 r -> is_party uid2 r ->
  fst (serve w (join uid1 t1 sid)) = Ok {| success := true |} /\
  fst (serve (snd (serve w (join uid1 t1 sid))) (join uid2 t2 sid))
    = Ok {| success := true |} /\
  (exists r1, db (serve_all w [join uid1 t1 sid]) !! sid = Some r1 /\
     status r1 = in_progress /\ actualStartTime r1 = Some t1) /\
  (exists r2, db (serve_all w [join uid1 t1 sid; join uid2 t2 sid]) !! sid = Some r2 /\
     status r2 = in_progress /\ actualStartTime r2 = Some t2).
Proof.
  intros Hr Hu1 Hu2 Hp1 Hp2. simpl.
  rewrite (serve_party w (join uid1 t1 sid) uid1 r) by done. simpl.
  set (r1 := apply_data (status_data to_in_progress t1) r).
  rewrite (serve_party _ (join uid2 t2 sid) uid2 r1);
    [ | done | done | apply lookup_insert_eq | done ].
  simpl. split_and!; try done.
  - exists r1. split; [apply lookup_insert_eq | done].
  - eexists. split; [apply lookup_insert_eq | done].
Qed.

Lemma join_twice_keeps_last_start_time_witness :
  exists r2,
    db (serve_all (demo_world S1 None 0)
          [join "T" 1700000000500 "S1"; join "L" 1700000060000 "S1"]) !! "S1"
      = Some r2 /\
    status r2 = in_progress /\ actualStartTime r2 = Some 1700000060000.
Proof.
  apply (join_twice_keeps_last_start_time (demo_world S1 None 0) "S1" S1 "T" "L").
  - vm_compute. reflexivity.
  - discriminate.
  - discriminate.
  - left. reflexivity.
  - right. reflexivity.
Defined.

(** C7, as stated, fails: [S1] was completed at 1700003600000 ms and its
    teacher [T] ends it again at 1700003660000 ms; the call succeeds and the
    actual end time becomes 1700003660000. *)
Lemma second_end_overwrites_end_time :
  ~ (forall w sid uid t r,
       db w !! sid = Some r -> uid <> "" -> is_party uid r ->
       status r = completed ->
       fst (serve w (end_call uid t sid)) = Ok {| success := true |} /\
       actualEndTime <$> (db (snd (serve w (end_call uid t sid))) !! sid)
         = Some (actualEndTime r)).
Proof.
  intros H.
  destruct (H (demo_world S1_completed None 0) "S1" "T" 1700003660000
              S1_completed) as [_ He];
    [vm_compute; reflexivity | discriminate | left; reflexivity | reflexivity |].
  vm_compute in He. discriminate He.
Qed.

(** C7, amended: calling end twice in succession on the same session
    succeeds both times, and each call writes the actual end time: after the
    first call it is the time of the first call, after the second call it is
    the time of the second call; the actual start time is left as it was. *)
Theorem end_twice_keeps_last_end_time w sid r uid1 uid2 t1 t2 :
  db w !! sid = Some r ->
  uid1 <> "" -> uid2 <> "" -> is_party uid1 r -> is_party uid2 r ->
  fst (serve w (end_call uid1 t1 sid)) = Ok {| success := true |} /\
  fst (serve (snd (serve w (end_call uid1 t1 sid))) (end_call uid2 t2 sid))
    = Ok {| success := true |} /\
  (exists r1, db (serve_all w [end_call uid1 t1 sid]) !! sid = Some r1 /\
     status r1 = completed /\ actualEndTime r1 = Some t1 /\
     actualStartTime r1 = actualStartTime r) /\
  (exists r2,
     db (serve_all w [end_call uid1 t1 sid; end_call uid2 t2 sid]) !! sid = Some r2 /\
     status r2 = completed /\ actualEndTime r2 = Some t2 /\
     actualStartTime r2 = actualStartTime r).
Proof.
  intros Hr Hu1 Hu2 Hp1 Hp2. simpl.
  rewrite (serve_party w (end_call uid1 t1 sid) uid1 r) by done. simpl.
  set (r1 := apply_data (status_data to_completed t1) r).
  rewrite (serve_party _ (end_call uid2 t2 sid) uid2 r1);
    [ | done | done | apply lookup_insert_eq | done ].
  simpl. split_and!; try done.
  - exists r1. split; [apply lookup_insert_eq | done].
  - eexists. split; [apply lookup_insert_eq | done].
Qed.

Lemma end_twice_keeps_last_end_time_witness :
  fst (serve (demo_world S1_in_progress None 0) (end_call "L" 1700003600000 "S1"))
    = Ok {| success := true |} /\
  fst (serve (snd (serve (demo_world S1_in_progress None 0)
                     (end_call "L" 1700003600000 "S1")))
         (end_call "T" 1700003660000 "S1"))
    = Ok {| success := true |} /\
  (exists r1,
     db (serve_all (demo_world S1_in_progress None 0)
           [end_call "L" 1700003600000 "S1"]) !! "S1" = Some r1 /\
     status r1 = completed /\ actualEndTime r1 = Some 1700003600000 /\
     actualStartTime r1 = Some 1700000000500) /\
  (exists r2,
     db (serve_all (demo_world S1_in_progress None 0)
           [end_call "L" 1700003600000 "S1"; end_call "T" 1700003660000 "S1"])
       !! "S1" = Some r2 /\
     status r2 = completed /\ actualEndTime r2 = Some 1700003660000 /\
     actualStartTime r2 = Some 1700000000500).
Proof.
  apply (end_twice_keeps_last_end_time
           (demo_world S1_in_progress None 0) "S1" S1_in_progress "L" "T").
  - vm_compute. reflexivity.
  - discriminate.
  - discriminate.
  - right. reflexivity.
  - left. reflexivity.
Defined.

(** ** Direction of the status *)

(** C4, as stated, fails: [S1] is completed and its teacher [T] asks for
    in_progress; the status moves from completed back to in_progress. *)
Lemma status_can_move_backward :
  ~ (forall w rq sid (r r' : LiveSession),
       db w !! sid = Some r -> db (snd (serve w rq)) !! sid = Some r' ->
       status_rank (status r) <= status_rank (status r')).
Proof.
  intros H.
  specialize (H (demo_world S1_completed None 0)
                (join "T" 1700003700000 "S1") "S1" S1_completed
                (apply_data (status_data to_in_progress 1700003700000) S1_completed)).
  assert (Hle : status_rank completed <= status_rank in_progress).
  { apply H; vm_compute; reflexivity. }
  vm_compute in Hle. by apply Hle.
Qed.

Lemma serve_keeps_left_scheduled w rq sid r :
  db w !! sid = Some r ->
  exists r', db (snd (serve w rq)) !! sid = Some r' /\
    (status r <> scheduled -> status r' <> scheduled) /\
    (status r' = status r \/ status r' = status_of (rq_target rq)).
Proof.
  intros Hr. destruct (serve_db w rq) as [-> | (r0 & Hr0 & ->)].
  - exists r. by eauto.
  - destruct (decide (rq_sessionId rq = sid)) as [<- | Hne].
    + rewrite lookup_insert_eq. eexists. split; [done|].
      rewrite status_data_status. split; [|by right].
      intros _. by destruct (rq_target rq).
    + rewrite lookup_insert_ne by done. exists r. by eauto.
Qed.

(** C4, amended: every successful [updateSessionStatus] sets the status to
    the requested one, in_progress or completed, whatever the current
    status is, and a request by a party does succeed.  So no sequence of
    operations ever returns a session to scheduled once it has left that
    state, and every session stays in the table; a completed session,
    however, goes back to in_progress on a later join. *)
Theorem status_never_returns_to_scheduled rs w sid r :
  db w !! sid = Some r ->
  (forall t res w',
     updateSessionStatus sid t w = (Ok res, w') ->
     exists r', db w' !! sid = Some r' /\ status r' = status_of t) /\
  (forall uid time t,
     uid <> "" -> is_party uid r ->
     fst (serve w {| rq_auth := Some (mkAuthSession uid); rq_time := time;
                     rq_sessionId := sid; rq_target := t |})
       = Ok {| success := true |} /\
     exists r',
       db (snd (serve w {| rq_auth := Some (mkAuthSession uid); rq_time := time;
                           rq_sessionId := sid; rq_target := t |})) !! sid
         = Some r' /\
       status r' = status_of t) /\
  (status r <> scheduled ->
     exists r', db (serve_all w rs) !! sid = Some r' /\ status r' <> scheduled).
Proof.
  intros Hr. split_and!.
  - intros t res w' Hok.
    apply updateSessionStatus_Ok in Hok as (uid & r0 & _ & _ & Hr0 & _ & _ & ->).
    simpl. rewrite lookup_insert_eq. eexists. split; [done|].
    apply status_data_status.
  - intros uid time t Hu Hp.
    rewrite (serve_party w _ uid r) by done. simpl.
    split; [done|]. rewrite lookup_insert_eq. eexists. split; [done|].
    apply status_data_status.
  - revert w r Hr. induction rs as [|rq rs IH]; intros w r Hr Hs; simpl.
    + by exists r.
    + destruct (serve_keeps_left_scheduled w rq sid r Hr) as (r1 & Hr1 & Hs1 & _).
      apply (IH _ r1); auto.
Qed.

Lemma status_never_returns_to_scheduled_witness :
  (fst (serve (demo_world S1_completed None 0) (join "T" 1700003700000 "S1"))
     = Ok {| success := true |} /\
   exists r',
     db (snd (serve (demo_world S1_completed None 0)
                (join "T" 1700003700000 "S1"))) !! "S1" = Some r' /\
     status r' = in_progress) /\
  exists r',
    db (serve_all (demo_world S1_completed None 0)
          [join "T" 1700003700000 "S1"; end_call "L" 1700003800000 "S1";
           join "X" 1700003900000 "S1"]) !! "S1" = Some r' /\
    status r' <> scheduled.
Proof.
  destruct (status_never_returns_to_scheduled
              [join "T" 1700003700000 "S1"; end_call "L" 1700003800000 "S1";
               join "X" 1700003900000 "S1"]
              (demo_world S1_completed None 0) "S1" S1_completed)
    as (_ & Hparty & Hseq).
  - vm_compute. reflexivity.
  - split.
    + apply (Hparty "T" 1700003700000 to_in_progress).
      * discriminate.
      * left. reflexivity.
    + apply Hseq. discriminate.
Defined.

(** ** The guard *)

(** C5, as stated, fails in its last part: a successful join or end does not
    return the caller's role.  For [S1], its teacher [T] and its student [L]
    get the same value [{ success: true }] from [updateSessionStatus], so no
    reading of that value tells the two roles apart. *)
Lemma status_result_carries_no_role :
  ~ (exists role_of : StatusResult -> bool,
       forall w sid t uid r res,
         auth w = Some (mkAuthSession uid) -> db w !! sid = Some r ->
         fst (updateSessionStatus sid t w) = Ok res ->
         role_of res = bool_decide (userId (teacher r) = uid)).
Proof.
  intros [role_of H].
  pose proof (H (demo_world S1 (Some "T") 1700000000123) "S1" to_in_progress
                "T" S1 {| success := true |} eq_refl) as HT.
  pose proof (H (demo_world S1 (Some "L") 1700000000999) "S1" to_in_progress
                "L" S1 {| success := true |} eq_refl) as HL.
  assert (Ht : role_of {| success := true |} = true).
  { apply HT; vm_compute; reflexivity. }
  assert (Hl : role_of {| success := true |} = false).
  { apply HL; vm_compute; reflexivity. }
  congruence.
Qed.

(** C5, amended: a signed-in caller who is neither the teacher's user nor
    the student of the session makes both status requests (join and end)
    and the room lookup fail, with "Session not found" when no such session
    exists and with "Unauthorized to access this session" otherwise, and
    the world, the session row included, is left exactly as it was.  A
    caller who is a party is let through: join and end then return only
    [{ success: true }], whichever role the caller has, and it is
    [getMeetingRoom] that returns the role, in the flags [isTeacher] and
    [isStudent], which say exactly whether the caller is the teacher's user
    and whether the caller is the student. *)
Theorem guard_rejects_outsiders w sid uid t :
  auth w = Some (mkAuthSession uid) -> uid <> "" ->
  ((forall r, db w !! sid = Some r -> ~ is_party uid r) ->
     updateSessionStatus sid t w = (Throw (guard_error (db w !! sid)), w) /\
     getMeetingRoom sid w = (Throw (guard_error (db w !! sid)), w)) /\
  (forall r, db w !! sid = Some r -> is_party uid r ->
     fst (updateSessionStatus sid t w) = Ok {| success := true |} /\
     exists info,
       getMeetingRoom sid w = (Ok info, w) /\
       (ri_isTeacher info = true <-> userId (teacher r) = uid) /\
       (ri_isStudent info = true <-> studentId r = Some uid) /\
       ri_isTeacher info || ri_isStudent info = true).
Proof.
  intros Ha Hu. split.
  - intros Hnp. split.
    + by apply (updateSessionStatus_rejected w sid t uid).
    + by apply (getMeetingRoom_rejected w sid uid).
  - intros r Hr Hp. split.
    + by rewrite (updateSessionStatus_party w sid t uid r).
    + destruct (getMeetingRoom_party w sid uid r Ha Hu Hr Hp)
        as (info & Hinfo & Ht & Hs).
      exists info. rewrite Ht, Hs, !bool_decide_eq_true.
      split_and!; try done.
      apply party_spec in Hp.
      destruct (bool_decide (userId (teacher r) = uid)); [done|].
      by destruct (bool_decide (studentId r = Some uid)).
Qed.

Lemma guard_rejects_outsiders_witness :
  (updateSessionStatus "S1" to_completed (demo_world S1 (Some "X") 1700000000123)
     = (Throw "Unauthorized to access this session",
        demo_world S1 (Some "X") 1700000000123) /\
   getMeetingRoom "S2" (demo_world S1 (Some "X") 1700000000123)
     = (Throw "Session not found", demo_world S1 (Some "X") 1700000000123)) /\
  (fst (updateSessionStatus "S1" to_in_progress
          (demo_world S1 (Some "L") 1700000000999)) = Ok {| success := true |} /\
   exists info,
     getMeetingRoom "S1" (demo_world S1 (Some "L") 1700000000999)
       = (Ok info, demo_world S1 (Some "L") 1700000000999) /\
     (ri_isTeacher info = true <-> "T" = "L") /\
     (ri_isStudent info = true <-> Some "L" = Some "L") /\
     ri_isTeacher info || ri_isStudent info = true).
Proof.
  split; [split|].
  - apply (guard_rejects_outsiders
             (demo_world S1 (Some "X") 1700000000123) "S1" "X" to_completed).
    + reflexivity.
    + discriminate.
    + intros r Hr. vm_compute in Hr. injection Hr as <-.
      intros [Hp | Hp]; discriminate Hp.
  - apply (guard_rejects_outsiders
             (demo_world S1 (Some "X") 1700000000123) "S2" "X" to_completed).
    + reflexivity.
    + discriminate.
    + intros r Hr. vm_compute in Hr. discriminate Hr.
  - destruct (guard_rejects_outsiders
                (demo_world S1 (Some "L") 1700000000999) "S1" "L" to_in_progress)
      as [_ Hparty].
    + reflexivity.
    + discriminate.
    + apply (Hparty S1).
      * vm_compute. reflexivity.
      * right. reflexivity.
Defined.

(** C10: whenever [getMeetingRoom] returns, one of the flags [isTeacher] and
    [isStudent] of the result is true. *)
Theorem getMeetingRoom_flags sid w info w' :
  getMeetingRoom sid w = (Ok info, w') ->
  ri_isTeacher info || ri_isStudent info = true.
Proof.
  intros Hok.
  apply getMeetingRoom_Ok in Hok as (uid & r & _ & _ & Hp & _ & _ & Ht & Hs).
  rewrite Ht, Hs. apply party_spec in Hp.
  destruct (bool_decide (userId (teacher r) = uid)); [done|].
  by destruct (bool_decide (studentId r = Some uid)).
Qed.

Lemma getMeetingRoom_flags_witness :
  getMeetingRoom "S1" (demo_world S1 (Some "L") 1700000000999)
    = (Ok S1_info_L, demo_world S1 (Some "L") 1700000000999) /\
  ri_isTeacher S1_info_L || ri_isStudent S1_info_L = true.
Proof.
  assert (H : getMeetingRoom "S1" (demo_world S1 (Some "L") 1700000000999)
              = (Ok S1_info_L, demo_world S1 (Some "L") 1700000000999))
    by (vm_compute; reflexivity).
  split; [exact H | exact (getMeetingRoom_flags _ _ _ _ H)].
Defined.

(** ** Token issuance *)

Lemma generateAgoraToken_issue ch u w :
  generateAgoraToken ch u w = (issue ch u w, w).
Proof.
  unfold generateAgoraToken, issue, app_id, app_certificate. run.
  destruct (process_env w !! "NEXT_PUBLIC_AGORA_APP_ID") as [a|]; [|done].
  destruct (process_env w !! "AGORA_APP_CERTIFICATE") as [c|]; [|done].
  destruct (bool_decide (a = "")); simpl; [done|].
  destruct (bool_decide (c = "")); simpl; [done|].
  destruct (agora_module w) as [m|]; [|done].
  by destruct (buildTokenWithAccount m a c ch u PUBLISHER _ _).
Qed.

Lemma issue_configuration_error ch u w :
  issue ch u w = Throw configuration_error <-> signing_material_missing w.
Proof.
  unfold issue, signing_material_missing.
  destruct (app_id w) as [a|]; [|split; [intros _; by left | done]].
  destruct (app_certificate w) as [c|]; [|split; [intros _; by right | done]].
  unfold truthy.
  destruct (bool_decide (a = "")); simpl; [split; [intros _; by left | done]|].
  destruct (bool_decide (c = "")); simpl; [split; [intros _; by right | done]|].
  split; [|by intros [?|?]].
  destruct (agora_module w) as [m|]; [|done].
  by destruct (buildTokenWithAccount m a c ch u PUBLISHER _ _).
Qed.

(** C6: [generateAgoraToken] never looks a session up and never asks who is
    calling: run with any other session table and any other caller, signed
    in or not, it has the same outcome; it leaves the world, the session
    table included, as it found it; and when the application id and the
    certificate are set and the token builder delivers, the outcome is the
    credential built from the arguments alone. *)
Theorem generateAgoraToken_ignores_sessions ch u w d a :
  fst (generateAgoraToken ch u (with_sessions w d a))
    = fst (generateAgoraToken ch u w) /\
  snd (generateAgoraToken ch u w) = w /\
  (forall av cv m tok,
     app_id w = Some av -> av <> "" ->
     app_certificate w = Some cv -> cv <> "" ->
     agora_module w = Some m ->
     buildTokenWithAccount m av cv ch u PUBLISHER
       (privilegeExpiredTs (clock w)) (entropy w) = Some tok ->
     generateAgoraToken ch u (with_sessions w d a)
       = (Ok {| token := tok; tr_channelName := ch; tr_userId := u;
                tr_appId := av |},
          with_sessions w d a)).
Proof.
  rewrite !generateAgoraToken_issue. simpl. split_and!; [done | done |].
  intros av cv m tok Hav Hne Hcv Hne' Hm Hb.
  f_equal.
  unfold issue, app_id, app_certificate in *. cbn [process_env with_sessions].
  rewrite Hav, Hcv, !truthy_Some by done. unfold with_sessions.
  cbn [andb clock entropy agora_module]. by rewrite Hm, Hb.
Qed.

Lemma generateAgoraToken_ignores_sessions_witness :
  generateAgoraToken "room_S1" "student"
    (with_sessions (demo_world S1 (Some "T") 1700000000123) ∅ None)
  = (Ok {| token := "006app:room_S1:student:1700003600:7";
           tr_channelName := "room_S1"; tr_userId := "student";
           tr_appId := "app" |},
     with_sessions (demo_world S1 (Some "T") 1700000000123) ∅ None).
Proof.
  destruct (generateAgoraToken_ignores_sessions "room_S1" "student"
              (demo_world S1 (Some "T") 1700000000123) ∅ None) as (_ & _ & H).
  apply (H "app" "cert" demo_agora).
  - vm_compute. reflexivity.
  - discriminate.
  - vm_compute. reflexivity.
  - discriminate.
  - reflexivity.
  - vm_compute. reflexivity.
Defined.

(** C8: issuing fails with the configuration error exactly when the
    application id or the application certificate is missing (undefined or
    empty); in that case no credential is returned, for every channel and
    user id. *)
Theorem configuration_error_iff_missing ch u w :
  (fst (generateAgoraToken ch u w) = Throw configuration_error
     <-> signing_material_missing w) /\
  (signing_material_missing w ->
     forall r, fst (generateAgoraToken ch u w) <> Ok r).
Proof.
  rewrite generateAgoraToken_issue. simpl. split.
  - apply issue_configuration_error.
  - intros Hm r. apply (issue_configuration_error ch u w) in Hm. by rewrite Hm.
Qed.

Lemma configuration_error_iff_missing_witness :
  fst (generateAgoraToken "room_S1" "teacher"
         {| db := ∅; auth := None;
            process_env := <["NEXT_PUBLIC_AGORA_APP_ID" := "app"]> ∅;
            clock := 1700000000123; entropy := 7;
            agora_module := Some demo_agora |})
    = Throw "Video service configuration error".
Proof.
  apply (configuration_error_iff_missing "room_S1" "teacher").
  right. vm_compute. reflexivity.
Defined.

(** C9: a credential that is issued is the one the builder makes for the
    publisher role with a privilege expiry of the issuance time in seconds,
    [Math.floor(Date.now() / 1000)], plus 3600; issuing writes nothing to
    the world, so the credential is not stored and every call builds it
    anew. *)
Theorem token_expires_after_one_hour ch u w r w' :
  generateAgoraToken ch u w = (Ok r, w') ->
  w' = w /\
  privilegeExpiredTs (clock w) = clock w / 1000 + 3600 /\
  clock w + 3599000 < 1000 * privilegeExpiredTs (clock w) <= clock w + 3600000 /\
  exists m a c,
    agora_module w = Some m /\ app_id w = Some a /\ app_certificate w = Some c /\
    buildTokenWithAccount m a c ch u PUBLISHER
      (privilegeExpiredTs (clock w)) (entropy w) = Some (token r).
Proof.
  rewrite generateAgoraToken_issue. intros [= Hi Hw]. subst w'.
  split; [done|]. split; [done|]. split.
  - unfold privilegeExpiredTs, currentTimestamp, expirationTimeInSeconds.
    pose proof (Z.div_mod (clock w) 1000 ltac:(lia)) as Hdm.
    pose proof (Z.mod_pos_bound (clock w) 1000 ltac:(lia)) as Hb. lia.
  - unfold issue in Hi.
    destruct (app_id w) as [a|]; [|done].
    destruct (app_certificate w) as [c|]; [|done].
    destruct (truthy (Some a) && truthy (Some c)); [|done].
    destruct (agora_module w) as [m|]; [|done].
    destruct (buildTokenWithAccount m a c ch u PUBLISHER _ _) as [tok|] eqn:Hb;
      [|done].
    injection Hi as <-. by exists m, a, c.
Qed.

Lemma token_expires_after_one_hour_witness :
  generateAgoraToken "room_S1" "teacher" (demo_world S1 (Some "T") 1700000000123)
    = (Ok S1_token_T, demo_world S1 (Some "T") 1700000000123) /\
  privilegeExpiredTs 1700000000123 = 1700000000123 / 1000 + 3600 /\
  privilegeExpiredTs 1700000000123 = 1700003600.
Proof.
  assert (H : generateAgoraToken "room_S1" "teacher"
                (demo_world S1 (Some "T") 1700000000123)
              = (Ok S1_token_T, demo_world S1 (Some "T") 1700000000123))
    by (vm_compute; reflexivity).
  destruct (token_expires_after_one_hour _ _ _ _ _ H) as (_ & He & _).
  split_and!; [exact H | exact He | reflexivity].
Defined.

(** * Further properties of the session actions *)

Lemma apply_data_no_data r : apply_data no_data r = r.
Proof. by destruct r. Qed.

Lemma with_db_same (w : World) : with_db w (db w) = w.
Proof. by destruct w. Qed.

(** The three session actions go through the same steps up to the guard;
    what each of them does with a signed-in caller. *)
Lemma createMeetingRoom_signed_in w sid uid :
  auth w = Some (mkAuthSession uid) -> uid <> "" ->
  createMeetingRoom sid w =
    match db w !! sid with
    | None => (Throw (guard_error None), w)
    | Some r =>
      if negb (bool_decide (userId (teacher r) = uid))
         && negb (bool_decide (studentId r = Some uid))
      then (Throw (guard_error (Some r)), w)
      else (Ok {| md_roomId := "room_" +:+ sid +:+ "_" +:+ pretty (clock w);
                  md_sessionId := sid;
                  md_teacherId := teacherId r;
                  md_studentId := studentId r;
                  md_scheduledStart := scheduledAt r;
                  md_provider := "agora";
                  md_status := "scheduled" |}, w)
    end.
Proof.
  intros Ha Hu. unfold createMeetingRoom. run. rewrite Ha. simpl.
  rewrite bool_decide_eq_false_2 by done. simpl.
  destruct (db w !! sid) as [r|] eqn:Hr; [|done].
  destruct (negb _ && negb _); [done|].
  rewrite Hr, apply_data_no_data, insert_id by done.
  by rewrite with_db_same.
Qed.

Lemma getMeetingRoom_signed_in w sid uid :
  auth w = Some (mkAuthSession uid) -> uid <> "" ->
  getMeetingRoom sid w =
    match db w !! sid with
    | None => (Throw (guard_error None), w)
    | Some r =>
      if negb (bool_decide (userId (teacher r) = uid))
         && negb (bool_decide (studentId r = Some uid))
      then (Throw (guard_error (Some r)), w)
      else (Ok {| ri_sessionId := id r;
                  ri_roomId := "room_" +:+ sid;
                  ri_isTeacher := bool_decide (userId (teacher r) = uid);
                  ri_isStudent := bool_decide (studentId r = Some uid);
                  ri_teacherName := user_name (user (teacher r));
                  ri_studentName := or_default (student r ≫= user_name) "Student";
                  ri_sessionTitle := or_default (title r) "Live Session";
                  ri_scheduledTime := scheduledAt r;
                  ri_duration := duration r;
                  ri_status := status r |}, w)
    end.
Proof.
  intros Ha Hu. unfold getMeetingRoom. run. rewrite Ha. simpl.
  rewrite bool_decide_eq_false_2 by done. simpl.
  destruct (db w !! sid) as [r|] eqn:Hr; [|done].
  by destruct (negb _ && negb _).
Qed.

Lemma updateSessionStatus_signed_in w sid t uid :
  auth w = Some (mkAuthSession uid) -> uid <> "" ->
  updateSessionStatus sid t w =
    match db w !! sid with
    | None => (Throw (guard_error None), w)
    | Some r =>
      if negb (bool_decide (userId (teacher r) = uid))
         && negb (bool_decide (studentId r = Some uid))
      then (Throw (guard_error (Some r)), w)
      else (Ok {| success := true |},
            with_db w (<[sid := apply_data (status_data t (clock w)) r]> (db w)))
    end.
Proof.
  intros Ha Hu. unfold updateSessionStatus. run. rewrite Ha. simpl.
  rewrite bool_decide_eq_false_2 by done. simpl.
  destruct (db w !! sid) as [r|] eqn:Hr; [|done].
  destruct (negb _ && negb _); [done|]. by rewrite Hr.
Qed.

Lemma signed_out_cases w :
  truthy (session_user_id (auth w)) = false ->
  auth w = None \/ auth w = Some (mkAuthSession "").
Proof.
  destruct (auth w) as [[uid]|]; simpl; [|by left].
  case_bool_decide; [subst; by right | done].
Qed.

Lemma signed_in_cases w :
  truthy (session_user_id (auth w)) = true ->
  exists uid, auth w = Some (mkAuthSession uid) /\ uid <> "".
Proof.
  destruct (auth w) as [[uid]|]; simpl; [|done].
  case_bool_decide; [done|]. by exists uid.
Qed.

(** X1: with nobody signed in (no session, or a session whose user id is
    empty) each of the three session actions redirects to /sign-in and
    leaves the world as it was; the session table is not even consulted, so
    this is also the answer for a session id that does not exist. *)
Theorem signed_out_is_redirected w sid t :
  truthy (session_user_id (auth w)) = false ->
  createMeetingRoom sid w = (Redirect "/sign-in", w) /\
  getMeetingRoom sid w = (Redirect "/sign-in", w) /\
  updateSessionStatus sid t w = (Redirect "/sign-in", w).
Proof.
  intros H. unfold createMeetingRoom, getMeetingRoom, updateSessionStatus. run.
  destruct (signed_out_cases w H) as [-> | ->]; by simpl.
Qed.

Lemma signed_out_is_redirected_witness :
  createMeetingRoom "S1" (demo_world S1 (Some "") 5)
    = (Redirect "/sign-in", demo_world S1 (Some "") 5) /\
  getMeetingRoom "S1" (demo_world S1 (Some "") 5)
    = (Redirect "/sign-in", demo_world S1 (Some "") 5) /\
  updateSessionStatus "nowhere" to_completed (demo_world S1 (Some "") 5)
    = (Redirect "/sign-in", demo_world S1 (Some "") 5).
Proof.
  split_and!.
  - apply (signed_out_is_redirected (demo_world S1 (Some "") 5) "S1" to_completed).
    reflexivity.
  - apply (signed_out_is_redirected (demo_world S1 (Some "") 5) "S1" to_completed).
    reflexivity.
  - apply (signed_out_is_redirected (demo_world S1 (Some "") 5) "nowhere" to_completed).
    reflexivity.
Defined.

(** X2: [createMeetingRoom] changes nothing: whether it redirects, throws or
    returns, the world after the call, the session table included, is the
    world before it.  Its update carries no field, and the room id it
    returns is stored nowhere. *)
Theorem createMeetingRoom_changes_nothing sid w :
  snd (createMeetingRoom sid w) = w.
Proof.
  destruct (truthy (session_user_id (auth w))) eqn:Hs.
  - destruct (signed_in_cases w Hs) as (uid & Ha & Hu).
    rewrite (createMeetingRoom_signed_in w sid uid) by done.
    destruct (db w !! sid) as [r|]; [|done].
    by destruct (negb _ && negb _).
  - unfold createMeetingRoom. run.
    destruct (signed_out_cases w Hs) as [-> | ->]; by simpl.
Qed.

(** X3: the three session actions admit the same callers.  Each of them
    succeeds exactly when a user is signed in, the session exists, and that
    user is the teacher's user or the student of the session. *)
Theorem session_actions_admit_same_callers sid t w :
  ((exists data, fst (createMeetingRoom sid w) = Ok data) <->
   (exists info, fst (getMeetingRoom sid w) = Ok info)) /\
  ((exists info, fst (getMeetingRoom sid w) = Ok info) <->
   fst (updateSessionStatus sid t w) = Ok {| success := true |}) /\
  (fst (updateSessionStatus sid t w) = Ok {| success := true |} <->
   exists uid r, auth w = Some (mkAuthSession uid) /\ uid <> "" /\
     db w !! sid = Some r /\ is_party uid r).
Proof.
  destruct (truthy (session_user_id (auth w))) eqn:Hs.
  - destruct (signed_in_cases w Hs) as (uid & Ha & Hu).
    rewrite (createMeetingRoom_signed_in w sid uid),
      (getMeetingRoom_signed_in w sid uid),
      (updateSessionStatus_signed_in w sid t uid) by done.
    destruct (db w !! sid) as [r|] eqn:Hr.
    + destruct (negb _ && negb _) eqn:Hg; simpl.
      * split_and!; split; try done; try by intros [? ?].
        intros (uid' & r' & Ha' & _ & Hr' & Hp).
        replace uid' with uid in Hp by congruence.
        replace r' with r in Hp by congruence.
        apply party_spec in Hp. congruence.
      * split_and!; split; try done; eauto.
        intros _. exists uid, r. split_and!; try done. by apply party_spec.
    + simpl. split_and!; split; try done; try by intros [? ?].
      by intros (? & ? & _ & _ & ? & _).
  - unfold createMeetingRoom, getMeetingRoom, updateSessionStatus. run.
    destruct (signed_out_cases w Hs) as [Ha | Ha]; rewrite Ha; simpl;
      (split_and!; split; try done; try by intros [? ?]);
      intros (uid & ? & Ha' & Hu & _); congruence.
Qed.

(** X4: a status request touches one row and one timestamp.  Every session
    other than the one addressed has after the call the row it had before,
    and a session absent before is absent after; in the addressed row the
    id, the parties, the title, the schedule and the duration are never
    changed, a join leaves the actual end time and an end leaves the actual
    start time as they were. *)
Theorem updateSessionStatus_frame sid t w :
  (forall sid', sid' <> sid ->
     db (snd (updateSessionStatus sid t w)) !! sid' = db w !! sid') /\
  match db w !! sid with
  | None => db (snd (updateSessionStatus sid t w)) !! sid = None
  | Some r =>
    exists r', db (snd (updateSessionStatus sid t w)) !! sid = Some r' /\
      id r' = id r /\
      teacher r' = teacher r /\ teacherId r' = teacherId r /\
      studentId r' = studentId r /\ student r' = student r /\
      title r' = title r /\ scheduledAt r' = scheduledAt r /\
      duration r' = duration r /\
      (t = to_in_progress -> actualEndTime r' = actualEndTime r) /\
      (t = to_completed -> actualStartTime r' = actualStartTime r)
  end.
Proof.
  destruct (updateSessionStatus_db w sid t) as [E | (r & Hr & E)]; rewrite E.
  - split; [done|]. destruct (db w !! sid) as [r|]; [|done].
    exists r. by split_and!.
  - split.
    + intros sid' Hne. by rewrite lookup_insert_ne.
    + rewrite Hr, lookup_insert_eq. eexists. split; [done|].
      split_and!; try done; by intros ->.
Qed.

Lemma updateSessionStatus_frame_witness :
  fst (updateSessionStatus "S1" to_in_progress (demo_world2 (Some "T") 9))
    = Ok {| success := true |} /\
  db (snd (updateSessionStatus "S1" to_in_progress (demo_world2 (Some "T") 9))) !! "S2"
    = Some S2 /\
  db (snd (updateSessionStatus "S1" to_in_progress (demo_world2 (Some "T") 9))) !! "S3"
    = None.
Proof.
  destruct (updateSessionStatus_frame "S1" to_in_progress (demo_world2 (Some "T") 9))
    as [Hother _].
  split_and!.
  - vm_compute. reflexivity.
  - rewrite (Hother "S2") by discriminate. vm_compute. reflexivity.
  - rewrite (Hother "S3") by discriminate. vm_compute. reflexivity.
Defined.

(** X5: over any sequence of status requests, by whomever and whenever, no
    session appears or disappears, and every session keeps its id, its
    parties, its title, its schedule and its duration. *)
Theorem requests_keep_sessions_and_parties rs w sid :
  match db w !! sid with
  | None => db (serve_all w rs) !! sid = None
  | Some r =>
    exists r', db (serve_all w rs) !! sid = Some r' /\
      id r' = id r /\ teacherId r' = teacherId r /\ teacher r' = teacher r /\
      studentId r' = studentId r /\ student r' = student r /\
      title r' = title r /\ scheduledAt r' = scheduledAt r /\
      duration r' = duration r
  end.
Proof.
  revert w. induction rs as [|rq rs IH]; intros w; simpl.
  - destruct (db w !! sid) as [r|]; [|done]. by exists r.
  - specialize (IH (snd (serve w rq))).
    destruct (serve_db w rq) as [E | (r0 & Hr0 & E)]; rewrite E in IH.
    + done.
    + destruct (decide (rq_sessionId rq = sid)) as [<- | Hne].
      * rewrite lookup_insert_eq in IH. rewrite Hr0.
        destruct IH as (r' & Hr' & IH). exists r'. split; [done|].
        simpl in IH. done.
      * by rewrite lookup_insert_ne in IH.
Qed.

(** X6: a status request shows in the room lookup.  After a party's status
    request, [getMeetingRoom] for the same session answers that party with
    the requested status, the same room id as before and the same flags. *)
Theorem status_update_is_visible w sid t uid r :
  auth w = Some (mkAuthSession uid) -> uid <> "" ->
  db w !! sid = Some r -> is_party uid r ->
  exists before after,
    fst (getMeetingRoom sid w) = Ok before /\
    fst (getMeetingRoom sid (snd (updateSessionStatus sid t w))) = Ok after /\
    ri_status before = status r /\
    ri_status after = status_of t /\
    ri_roomId after = ri_roomId before /\
    ri_isTeacher after = ri_isTeacher before /\
    ri_isStudent after = ri_isStudent before.
Proof.
  intros Ha Hu Hr Hp.
  rewrite (updateSessionStatus_party w sid t uid r) by done. simpl.
  rewrite (getMeetingRoom_signed_in w sid uid) by done.
  rewrite (getMeetingRoom_signed_in _ sid uid) by done.
  simpl. rewrite Hr, lookup_insert_eq. simpl.
  apply party_spec in Hp. rewrite Hp. simpl.
  eexists _, _. split_and!; reflexivity.
Qed.

Lemma status_update_is_visible_witness :
  exists before after,
    fst (getMeetingRoom "S1" (demo_world S1 (Some "L") 1700000000999)) = Ok before /\
    fst (getMeetingRoom "S1"
           (snd (updateSessionStatus "S1" to_in_progress
                   (demo_world S1 (Some "L") 1700000000999)))) = Ok after /\
    ri_status before = scheduled /\
    ri_status after = in_progress /\
    ri_roomId after = ri_roomId before /\
    ri_isTeacher after = ri_isTeacher before /\
    ri_isStudent after = ri_isStudent before.
Proof.
  apply (status_update_is_visible (demo_world S1 (Some "L") 1700000000999)
           "S1" to_in_progress "L" S1).
  - reflexivity.
  - discriminate.
  - vm_compute. reflexivity.
  - right. reflexivity.
Defined.




(** X8: distinct sessions get distinct rooms from [getMeetingRoom]: two
    successful lookups return the same room id only for the same session
    id. *)
Theorem getMeetingRoom_room_id_injective sid1 sid2 w1 w2 i1 i2 :
  fst (getMeetingRoom sid1 w1) = Ok i1 ->
  fst (getMeetingRoom sid2 w2) = Ok i2 ->
  ri_roomId i1 = ri_roomId i2 -> sid1 = sid2.
Proof.
  intros H1 H2.
  destruct (getMeetingRoom sid1 w1) as [o1 w1'] eqn:E1.
  destruct (getMeetingRoom sid2 w2) as [o2 w2'] eqn:E2.
  simpl in *. subst o1 o2.
  apply getMeetingRoom_Ok in E1 as (? & ? & _ & _ & _ & _ & -> & _).
  apply getMeetingRoom_Ok in E2 as (? & ? & _ & _ & _ & _ & -> & _).
  intros Heq. by apply (inj (String.append "room_")) in Heq.
Qed.

Lemma getMeetingRoom_room_id_injective_witness : "S1" = "S1".
Proof.
  apply (getMeetingRoom_room_id_injective "S1" "S1"
           (demo_world S1 (Some "T") 1700000000123)
           (demo_world S1 (Some "L") 1700000000999) S1_info_T S1_info_L).
  - vm_compute. reflexivity.
  - vm_compute. reflexivity.
  - reflexivity.
Defined.

Lemma createMeetingRoom_room_id_follows_clock_witness :
  md_roomId
    {| md_roomId := "room_S1_1700000000123"; md_sessionId := "S1";
       md_teacherId := "teacher-profile-1"; md_studentId := Some "L";
       md_scheduledStart := 1700000000000; md_provider := "agora";
       md_status := "scheduled" |}
  = md_roomId
    {| md_roomId := "room_S1_1700000000999"; md_sessionId := "S1";
       md_teacherId := "teacher-profile-1"; md_studentId := Some "L";
       md_scheduledStart := 1700000000000; md_provider := "agora";
       md_status := "scheduled" |}
  <-> 1700000000123 = 1700000000999.
Proof.
  apply (createMeetingRoom_room_id_follows_clock "S1"
           (demo_world S1 (Some "T") 1700000000123)
           (demo_world S1 (Some "L") 1700000000999)).
  - vm_compute. reflexivity.
  - vm_compute. reflexivity.
Defined.

(** X9: [generateAgoraToken] has three outcomes and hides the cause of a
    failure.  It returns a credential that repeats the channel name, the
    user id and the configured application id; or it throws the
    configuration error; or it throws "Failed to initialize video session",
    which is what a missing package and a throwing token builder both come
    to when the signing material is present.  It never redirects. *)
Theorem generateAgoraToken_outcomes ch u w :
  match fst (generateAgoraToken ch u w) with
  | Ok r =>
      tr_channelName r = ch /\ tr_userId r = u /\ app_id w = Some (tr_appId r) /\
      tr_appId r <> ""
  | Throw e =>
      (e = configuration_error /\ signing_material_missing w) \/
      (e = initialization_error /\ ~ signing_material_missing w /\
       match agora_module w with
       | None => True
       | Some m =>
         forall a c, app_id w = Some a -> app_certificate w = Some c ->
           buildTokenWithAccount m a c ch u PUBLISHER
             (privilegeExpiredTs (clock w)) (entropy w) = None
       end)
  | Redirect _ => False
  end.
Proof.
  rewrite generateAgoraToken_issue. simpl.
  pose proof (issue_configuration_error ch u w) as Hcfg.
  unfold issue in *. unfold signing_material_missing in *.
  destruct (app_id w) as [a|]; [|left; split; [done | by left]].
  destruct (app_certificate w) as [c|]; [|left; split; [done | by right]].
  unfold truthy in *.
  destruct (bool_decide (a = "")) eqn:Ea; simpl in *;
    [left; split; [done | by left]|].
  destruct (bool_decide (c = "")) eqn:Ec; simpl in *;
    [left; split; [done | by right]|].
  assert (Hpresent : ~ (true = false \/ true = false)) by (intros [?|?]; done).
  destruct (agora_module w) as [m|].
  - destruct (buildTokenWithAccount m a c ch u PUBLISHER _ _) as [tok|] eqn:Hb.
    + simpl. split_and!; try done. by apply bool_decide_eq_false in Ea.
    + right. split_and!; try done. by intros ? ? [= <-] [= <-].
  - right. by split_and!.
Qed.

(** X10: the provider [createMeetingRoom] assigns to a room is one that
    [getVideoProviders] lists as available, and the listed providers have
    distinct ids. *)
Theorem created_room_provider_is_available sid w data w' :
  createMeetingRoom sid w = (Ok data, w') ->
  exists providers p,
    getVideoProviders w' = (Ok providers, w') /\
    p ∈ providers /\ vp_id p = md_provider data /\ vp_available p = true /\
    NoDup (vp_id <$> providers).
Proof.
  intros Hok.
  assert (Hp : md_provider data = "agora").
  { revert Hok. unfold createMeetingRoom. run.
    destruct (auth w) as [[uid]|]; simpl; [|done].
    case_bool_decide; simpl; [done|].
    destruct (db w !! sid) as [r|] eqn:Hr; [|done].
    destruct (negb _ && negb _); [done|].
    rewrite Hr. by intros [= <- _]. }
  eexists video_providers, _. split; [reflexivity|].
  split; [apply list_elem_of_here|]. rewrite Hp.
  split_and!; [done | done |].
  apply (bool_decide_unpack _). vm_compute. reflexivity.
Qed.

Lemma created_room_provider_is_available_witness :
  exists providers p,
    getVideoProviders (demo_world S1 (Some "T") 1700000000123)
      = (Ok providers, demo_world S1 (Some "T") 1700000000123) /\
    p ∈ providers /\ vp_id p = "agora" /\ vp_available p = true /\
    NoDup (vp_id <$> providers).
Proof.
  apply (created_room_provider_is_available "S1"
           (demo_world S1 (Some "T") 1700000000123)
           {| md_roomId := "room_S1_1700000000123"; md_sessionId := "S1";
              md_teacherId := "teacher-profile-1"; md_studentId := Some "L";
              md_scheduledStart := 1700000000000; md_provider := "agora";
              md_status := "scheduled" |}).
  vm_compute. reflexivity.
Defined.

(** ** The video call component *)



(** * The session form *)

Lemma time_slots_parse :
  Forall (fun i => hours_minutes (slot_value (time_slot i))
                   = (Some (i / 2), Some (30 * (i mod 2))))
         (seqZ 0 48).
Proof. apply (bool_decide_unpack _). vm_compute. reflexivity. Qed.

(** X12: the start times the form offers read back as what they stand for.
    For every index i below 48, the i-th entry of [TIME_SLOTS] is the slot
    of hour i / 2 and minute 0 or 30, and splitting its value at the colon
    and converting the pieces, as [onSubmit] does, gives exactly that hour,
    between 0 and 23, and that minute. *)
Theorem time_slot_round_trip i :
  0 <= i < 48 ->
  TIME_SLOTS !! Z.to_nat i = Some (time_slot i) /\
  hours_minutes (slot_value (time_slot i)) = (Some (i / 2), Some (30 * (i mod 2))) /\
  0 <= i / 2 <= 23 /\ (30 * (i mod 2) = 0 \/ 30 * (i mod 2) = 30).
Proof.
  intros Hi. split_and!.
  - unfold TIME_SLOTS. rewrite list_lookup_fmap, lookup_seqZ_lt by lia.
    simpl. f_equal. f_equal. lia.
  - pose proof time_slots_parse as H. rewrite Forall_forall in H.
    apply H, elem_of_seqZ. lia.
  - apply Z.div_pos; lia.
  - assert (i / 2 < 24) by (apply Z.div_lt_upper_bound; lia). lia.
  - pose proof (Z.mod_pos_bound i 2 ltac:(lia)). lia.
Qed.

Lemma time_slot_round_trip_witness :
  TIME_SLOTS !! Z.to_nat 19 = Some (time_slot 19) /\
  hours_minutes (slot_value (time_slot 19)) = (Some (19 / 2), Some (30 * (19 mod 2))) /\
  0 <= 19 / 2 <= 23 /\ (30 * (19 mod 2) = 0 \/ 30 * (19 mod 2) = 30).
Proof. apply (time_slot_round_trip 19). lia. Defined.

(** X13: [TIME_SLOTS] has 48 entries, one for every half hour of the day in
    order; their values all have the shape HH:MM of five characters, and
    neither two values nor two labels are the same, so a chosen label or
    key stands for one start time only. *)
Theorem time_slots_distinct :
  length TIME_SLOTS = 48%nat /\
  Forall (fun s => String.length (slot_value s) = 5%nat) TIME_SLOTS /\
  NoDup (slot_value <$> TIME_SLOTS) /\
  NoDup (slot_label <$> TIME_SLOTS).
Proof.
  split_and!.
  - reflexivity.
  - apply (bool_decide_unpack _). vm_compute. reflexivity.
  - apply (bool_decide_unpack _). vm_compute. reflexivity.
  - apply (bool_decide_unpack _). vm_compute. reflexivity.
Qed.

Lemma time_slots_am_pm :
  Forall (fun i =>
            slot_label (time_slot i)
              = String.substring 0 (String.length (slot_label (time_slot i)) - 3)
                  (slot_label (time_slot i)) +:+ " AM" /\
            slot_label (time_slot (i + 24))
              = String.substring 0 (String.length (slot_label (time_slot i)) - 3)
                  (slot_label (time_slot i)) +:+ " PM")
         (seqZ 0 24).
Proof. apply (bool_decide_unpack _). vm_compute. reflexivity. Qed.

(** X14: the labels follow the twelve-hour clock: the slot of a morning
    half hour and the slot twelve hours later carry the same clock reading,
    the first with AM and the second with PM. *)
Theorem time_slot_labels_twelve_hours_apart i :
  0 <= i < 24 ->
  exists reading,
    slot_label (time_slot i) = reading +:+ " AM" /\
    slot_label (time_slot (i + 24)) = reading +:+ " PM".
Proof.
  intros Hi. pose proof time_slots_am_pm as H. rewrite Forall_forall in H.
  specialize (H i). simpl in H. eexists. apply H, elem_of_seqZ. lia.
Qed.

Lemma time_slot_labels_twelve_hours_apart_witness :
  exists reading,
    slot_label (time_slot 1) = reading +:+ " AM" /\
    slot_label (time_slot (1 + 24)) = reading +:+ " PM".
Proof. apply (time_slot_labels_twelve_hours_apart 1). lia. Defined.

(** An offered start time is not empty and reads back as its hour and
    minute. *)
Lemma offered_time_parses (time : string) :
  (exists i, 0 <= i < 48 /\ time = slot_value (time_slot i)) ->
  time <> "" /\
  exists i, 0 <= i < 48 /\ time = slot_value (time_slot i) /\
    hours_minutes time = (Some (i / 2), Some (30 * (i mod 2))).
Proof.
  intros (i & Hi & ->).
  pose proof time_slots_parse as Hparse. rewrite Forall_forall in Hparse.
  specialize (Hparse i ltac:(apply elem_of_seqZ; lia)).
  split; [|by exists i].
  intros E. rewrite E in Hparse. vm_compute in Hparse. discriminate Hparse.
Qed.

(** X15: what [onSubmit] sends, for form data whose start time is unset
    (or empty) or one of the offered [TIME_SLOTS] values.  It stops with
    the toast exactly when a one-time session lacks its date or its time;
    otherwise it posts, with the price in cents, and the body either is an
    availability slot without [scheduledAt], whatever date and time the
    form still holds, or is a one-time session whose [scheduledAt] is the
    chosen date set to the hour and minute of the chosen slot. *)
Theorem onSubmit_schedule {Date number : Type}
    (iso_at : Date -> option Z -> option Z -> string)
    (to_cents : number -> number) (data : SessionFormData Date number) :
  (truthy (fd_scheduledTime data) = false \/
   exists i, 0 <= i < 48 /\ fd_scheduledTime data = Some (slot_value (time_slot i))) ->
  match onSubmit iso_at to_cents data with
  | toast_error message =>
      message = "Please select date and time for the session" /\
      fd_sessionType data = specific /\
      (fd_scheduledDate data = None \/ truthy (fd_scheduledTime data) = false)
  | post_session body =>
      sr_price body = to_cents (fd_price data) /\
      ((fd_sessionType data = available /\
        sr_isAvailableSlot body = true /\ sr_scheduledAt body = None) \/
       (fd_sessionType data = specific /\
        sr_isAvailableSlot body = false /\
        exists date i,
          0 <= i < 48 /\
          fd_scheduledDate data = Some date /\
          fd_scheduledTime data = Some (slot_value (time_slot i)) /\
          sr_scheduledAt body
            = Some (iso_at date (Some (i / 2)) (Some (30 * (i mod 2))))))
  end.
Proof.
  intros Htime. unfold onSubmit.
  destruct (fd_sessionType data) eqn:Ht; [|simpl; split; [done | by left]].
  rewrite bool_decide_eq_true_2 by done.
  destruct (fd_scheduledDate data) as [date|] eqn:Hd;
    [|simpl; split_and!; try done; by left].
  rewrite (bool_decide_eq_true_2 (is_Some (Some date))) by eauto.
  destruct Htime as [Hnone | (i & Hi & Hslot)].
  - rewrite Hnone. simpl. split_and!; try done. by right.
  - destruct (offered_time_parses (slot_value (time_slot i))) as (Hne & _);
      [by exists i|].
    pose proof time_slots_parse as Hparse. rewrite Forall_forall in Hparse.
    specialize (Hparse i ltac:(apply elem_of_seqZ; lia)).
    rewrite Hslot, (truthy_Some _ Hne), Hparse.
    cbn [negb orb andb sr_price sr_isAvailableSlot sr_scheduledAt].
    split; [done|]. right. rewrite bool_decide_eq_false_2 by done.
    split_and!; try done. by exists date, i.
Qed.

Lemma onSubmit_schedule_witness :
  match onSubmit (fun (d : Z) h m => pretty d) (fun p : Z => 100 * p)
          {| fd_title := "Algebra"; fd_description := None;
             fd_subject := "Mathematics"; fd_sessionType := specific;
             fd_scheduledDate := Some 5; fd_scheduledTime := None;
             fd_duration := 60; fd_price := 50; fd_timezone := "UTC" |} with
  | toast_error message =>
      message = "Please select date and time for the session" /\
      specific = specific /\
      (Some 5 = None \/ truthy None = false)
  | post_session body => False
  end /\
  match onSubmit (fun (d : Z) h m => pretty d) (fun p : Z => 100 * p)
          {| fd_title := "Algebra"; fd_description := None;
             fd_subject := "Mathematics"; fd_sessionType := available;
             fd_scheduledDate := Some 5;
             fd_scheduledTime := Some (slot_value (time_slot 19));
             fd_duration := 60; fd_price := 50; fd_timezone := "UTC" |} with
  | toast_error message => False
  | post_session body =>
      sr_price body = 100 * 50 /\
      sr_isAvailableSlot body = true /\ sr_scheduledAt body = None
  end.
Proof.
  split.
  - exact (onSubmit_schedule (fun (d : Z) h m => pretty d) (fun p : Z => 100 * p)
             {| fd_title := "Algebra"; fd_description := None;
                fd_subject := "Mathematics"; fd_sessionType := specific;
                fd_scheduledDate := Some 5; fd_scheduledTime := None;
                fd_duration := 60; fd_price := 50; fd_timezone := "UTC" |}
             (or_introl eq_refl)).
  - assert (Hi : 0 <= 19 < 48) by lia.
    pose proof (onSubmit_schedule (fun (d : Z) h m => pretty d) (fun p : Z => 100 * p)
                  {| fd_title := "Algebra"; fd_description := None;
                     fd_subject := "Mathematics"; fd_sessionType := available;
                     fd_scheduledDate := Some 5;
                     fd_scheduledTime := Some (slot_value (time_slot 19));
                     fd_duration := 60; fd_price := 50; fd_timezone := "UTC" |}
                  (or_intror (ex_intro _ 19 (conj Hi eq_refl)))) as H.
    cbn in H. destruct H as [Hp [(_ & Ha & Hs) | (Hspec & _)]].
    + cbn. split_and!; [exact Hp | exact Ha | exact Hs].
    + discriminate Hspec.
Defined.

(** X16: a one-time session submitted with a chosen date and the i-th of
    the offered start times is posted, and its [scheduledAt] is the chosen
    date set to hour i / 2 and minute 0 or 30. *)
Theorem onSubmit_offered_time {Date number : Type}
    (iso_at : Date -> option Z -> option Z -> string)
    (to_cents : number -> number) (data : SessionFormData Date number)
    (date : Date) (i : Z) :
  0 <= i < 48 ->
  fd_sessionType data = specific ->
  fd_scheduledDate data = Some date ->
  fd_scheduledTime data = Some (slot_value (time_slot i)) ->
  exists body,
    onSubmit iso_at to_cents data = post_session body /\
    sr_scheduledAt body = Some (iso_at date (Some (i / 2)) (Some (30 * (i mod 2)))) /\
    sr_isAvailableSlot body = false.
Proof.
  intros Hi Ht Hd Htime.
  pose proof time_slots_parse as Hparse. rewrite Forall_forall in Hparse.
  specialize (Hparse i ltac:(apply elem_of_seqZ; lia)).
  assert (Hne : slot_value (time_slot i) <> "").
  { intros E. rewrite E in Hparse. vm_compute in Hparse. discriminate Hparse. }
  unfold onSubmit. rewrite Ht, Hd, Htime, (truthy_Some _ Hne), Hparse.
  rewrite (bool_decide_eq_true_2 (is_Some (Some date))) by eauto.
  eexists. split; [reflexivity|]. done.
Qed.

Lemma onSubmit_offered_time_witness :
  exists body,
    onSubmit (fun (d : Z) h m => pretty d) (fun p : Z => 100 * p)
      {| fd_title := "Algebra"; fd_description := None;
         fd_subject := "Mathematics"; fd_sessionType := specific;
         fd_scheduledDate := Some 5;
         fd_scheduledTime := Some (slot_value (time_slot 19));
         fd_duration := 60; fd_price := 50; fd_timezone := "UTC" |}
      = post_session body /\
    sr_scheduledAt body = Some (pretty 5) /\
    sr_isAvailableSlot body = false.
Proof.
  apply (onSubmit_offered_time (fun (d : Z) h m => pretty d) (fun p : Z => 100 * p)
           _ 5 19).
  - lia.
  - reflexivity.
  - reflexivity.
  - reflexivity.
Defined.

(** X17: every option the form offers passes the form's own schema: each
    duration lies within the 15 to 180 minutes the schema allows and
    survives the trip through the select as a string and back through
    [Number]; the default duration of 60 is one of the options; and every
    subject has the two characters the schema asks for. *)
Theorem form_options_pass_schema :
  Forall (fun d => duration_ok (do_value d) = true /\
                   Number_of_digits (pretty (do_value d)) = Some (do_value d))
         DURATIONS /\
  60 ∈ do_value <$> DURATIONS /\
  Forall (fun s => subject_ok s = true) SUBJECTS /\
  NoDup SUBJECTS.
Proof.
  split_and!.
  - apply (bool_decide_unpack _). vm_compute. reflexivity.
  - apply (bool_decide_unpack _). vm_compute. reflexivity.
  - apply (bool_decide_unpack _). vm_compute. reflexivity.
  - apply (bool_decide_unpack _). vm_compute. reflexivity.
Qed.

(** * The assistant chat route *)

Lemma answer_cases env cid message st :
  (exists text,
     sendMessage env (history_of (messages_of cid st)) message = inl text /\
     answer env cid message st =
       ({| resp_status := 200; resp_json := json_reply text cid |},
        {| conversations := conversations st;
           chat_messages :=
             chat_messages st ++
               [ {| am_conversationId := cid; am_role := "user";
                    am_content := message |};
                 {| am_conversationId := cid; am_role := "model";
                    am_content := text |} ] |})) \/
  (exists details,
     sendMessage env (history_of (messages_of cid st)) message = inr details /\
     answer env cid message st = (failed details, st)).
Proof.
  unfold answer.
  destruct (sendMessage env _ message) as [text | details]; eauto.
Qed.

Lemma named_conversation_Some body st cid c :
  named_conversation body st = Some (cid, c) ->
  cb_conversationId body = Some cid /\ cid <> "" /\ conversations st !! cid = Some c.
Proof.
  unfold named_conversation, truthy.
  destruct (cb_conversationId body) as [cid'|]; simpl; [|done].
  case_bool_decide; simpl; [done|].
  destruct (conversations st !! cid') as [c'|] eqn:Hc; simpl; [|done].
  by intros [= <- <-].
Qed.

Lemma messages_of_app cid convs ms added :
  messages_of cid {| conversations := convs; chat_messages := ms ++ added |}
  = (messages_of cid {| conversations := convs; chat_messages := ms |}
     ++ filter (fun m => am_conversationId m = cid) added)%list.
Proof. unfold messages_of. simpl. apply filter_app. Qed.

Lemma messages_of_conversations cid convs convs' ms :
  messages_of cid {| conversations := convs; chat_messages := ms |}
  = messages_of cid {| conversations := convs'; chat_messages := ms |}.
Proof. done. Qed.

Lemma chat_store_eta st :
  {| conversations := conversations st; chat_messages := chat_messages st |} = st.
Proof. by destruct st. Qed.

Lemma POST_signed_in env body message uid st :
  chat_session env = Some (mkAuthSession uid) ->
  cb_message body = Some message -> message <> "" ->
  POST env (inl body) st =
    match named_conversation body st with
    | Some (cid, c) =>
      if bool_decide (ac_userId c <> uid)
      then ({| resp_status := 403;
               resp_json := json_error "Unauthorized access to conversation" None |},
            st)
      else answer env cid message st
    | None =>
      match conversations st !! chat_next_id env with
      | Some _ => (failed "Unique constraint failed on the fields: (`id`)", st)
      | None =>
        answer env (chat_next_id env) message
          {| conversations :=
               <[chat_next_id env :=
                   {| ac_userId := uid;
                      ac_title := conversation_title message;
                      ac_updatedAt := chat_now env |}]> (conversations st);
             chat_messages := chat_messages st |}
      end
    end.
Proof.
  intros Hs Hm Hne. unfold POST, named_conversation.
  rewrite Hs, Hm, (truthy_Some _ Hne). simpl. done.
Qed.

(** X18: the refusals of [POST] write nothing.  It answers 401 exactly when
    nobody is signed in; a 400 means the request carried no message or an
    empty one; a 403 means the request named a conversation that belongs to
    another user; and after any of the three the store is as it was. *)
Theorem POST_refusals env json st :
  (resp_status (fst (POST env json st)) = 401 <-> chat_session env = None) /\
  (resp_status (fst (POST env json st)) = 400 ->
     exists body, json = inl body /\ truthy (cb_message body) = false) /\
  (resp_status (fst (POST env json st)) = 403 ->
     exists body cid c,
       json = inl body /\ cb_conversationId body = Some cid /\
       conversations st !! cid = Some c /\
       chat_session env <> Some (mkAuthSession (ac_userId c))) /\
  (resp_status (fst (POST env json st)) = 401 \/
   resp_status (fst (POST env json st)) = 400 \/
   resp_status (fst (POST env json st)) = 403 ->
   snd (POST env json st) = st).
Proof.
  destruct (chat_session env) as [[uid]|] eqn:Hs.
  2:{ unfold POST. rewrite Hs. simpl. by split_and!. }
  destruct json as [body | details].
  2:{ unfold POST. rewrite Hs. simpl. by split_and!. }
  destruct (cb_message body) as [message|] eqn:Hm.
  2:{ unfold POST. rewrite Hs, Hm. simpl. split_and!; try done.
      all: try (intros _; exists body; by rewrite Hm). }
  destruct (decide (message = "")) as [-> | Hne].
  { unfold POST. rewrite Hs, Hm. simpl. split_and!; try done.
    all: try (intros _; exists body; by rewrite Hm). }
  rewrite (POST_signed_in env body message uid st) by done.
  destruct (named_conversation body st) as [[cid c]|] eqn:Hn.
  - apply named_conversation_Some in Hn as (Hcid & _ & Hc).
    case_bool_decide as Ho.
    + simpl. split_and!; try done.
      intros _. exists body, cid, c. split_and!; try done. congruence.
    + destruct (answer_cases env cid message st)
        as [(text & _ & ->) | (details & _ & ->)]; simpl;
        split_and!; try done; intros [?|[?|?]]; done.
  - destruct (conversations st !! chat_next_id env) eqn:Hfresh.
    + simpl. by split_and!.
    + match goal with |- context [answer env ?c ?m ?s] =>
        destruct (answer_cases env c m s)
          as [(text & _ & ->) | (details & _ & ->)] end; simpl;
        split_and!; try done.
      * intros [?|[?|?]]; done.
      * intros [?|[?|?]]; done.
Qed.

(** Every way [POST] can leave the store: untouched; with messages appended
    to a conversation of the caller; or with a new conversation of the
    caller under the next id, and messages appended to it. *)
Lemma POST_store env json st :
  snd (POST env json st) = st \/
  exists uid cid added,
    chat_session env = Some (mkAuthSession uid) /\
    Forall (fun m => am_conversationId m = cid) added /\
    ((exists c, conversations st !! cid = Some c /\ ac_userId c = uid /\
        snd (POST env json st) =
          {| conversations := conversations st;
             chat_messages := chat_messages st ++ added |}) \/
     (exists message, cid = chat_next_id env /\ conversations st !! cid = None /\
        snd (POST env json st) =
          {| conversations :=
               <[cid := {| ac_userId := uid;
                           ac_title := conversation_title message;
                           ac_updatedAt := chat_now env |}]> (conversations st);
             chat_messages := chat_messages st ++ added |})).
Proof.
  destruct (chat_session env) as [[uid]|] eqn:Hs;
    [|left; unfold POST; by rewrite Hs].
  destruct json as [body | details]; [|left; unfold POST; by rewrite Hs].
  destruct (cb_message body) as [message|] eqn:Hm;
    [|left; unfold POST; by rewrite Hs, Hm].
  destruct (decide (message = "")) as [-> | Hne];
    [left; unfold POST; by rewrite Hs, Hm|].
  rewrite (POST_signed_in env body message uid st) by done.
  destruct (named_conversation body st) as [[cid c]|] eqn:Hn.
  - apply named_conversation_Some in Hn as (_ & _ & Hc).
    case_bool_decide as Ho; [by left|].
    destruct (answer_cases env cid message st)
      as [(text & _ & ->) | (details & _ & ->)]; [|by left].
    right. exists uid, cid. eexists. split; [done|]. split; [|left; by exists c].
    by repeat constructor.
  - destruct (conversations st !! chat_next_id env) eqn:Hfresh; [by left|].
    right. exists uid, (chat_next_id env).
    match goal with |- context [answer env ?c ?m ?s] =>
      destruct (answer_cases env c m s)
        as [(text & _ & ->) | (details & _ & ->)] end; simpl.
    + eexists. split; [done|]. split; [|right; by exists message].
      by repeat constructor.
    + exists []. split; [done|]. split; [done|]. right. exists message.
      by rewrite app_nil_r.
Qed.

Lemma messages_elsewhere cid cid0 (added : list AiMessage) :
  Forall (fun m => am_conversationId m = cid0) added -> cid <> cid0 ->
  filter (fun m => am_conversationId m = cid) added = [].
Proof.
  intros Hadded Hne. induction Hadded as [|m l Hm _ IH]; [done|].
  rewrite filter_cons_False by congruence. done.
Qed.

(** X19: [POST] keeps users apart.  Whatever the request, it removes and
    alters no conversation, it only appends to the messages, and every
    conversation that does not belong to the caller, after the request, was
    there before with the same messages. *)
Theorem POST_isolation env json st :
  (forall cid c, conversations st !! cid = Some c ->
     conversations (snd (POST env json st)) !! cid = Some c) /\
  (exists added,
     chat_messages (snd (POST env json st)) = (chat_messages st ++ added)%list) /\
  (forall cid c,
     conversations (snd (POST env json st)) !! cid = Some c ->
     chat_session env <> Some (mkAuthSession (ac_userId c)) ->
     conversations st !! cid = Some c /\
     messages_of cid (snd (POST env json st)) = messages_of cid st).
Proof.
  destruct (POST_store env json st)
    as [-> | (uid & cid0 & added & Hs & Hadded & Hcase)].
  { split_and!; try done. exists []. by rewrite app_nil_r. }
  pose proof (fun cid => messages_elsewhere cid cid0 added Hadded) as Hfilter.
  destruct Hcase as [(c0 & Hc0 & Ho & ->) | (message & -> & Hfresh & ->)]; simpl.
  - split_and!; [done | by eexists |].
    intros cid c Hc Hother. split; [done|].
    rewrite messages_of_app, Hfilter, app_nil_r; [by destruct st|].
    intros ->. apply Hother. rewrite Hs. congruence.
  - split_and!.
    + intros cid c Hc. rewrite lookup_insert_ne; [done|]. congruence.
    + by eexists.
    + intros cid c Hc Hother.
      destruct (decide (cid = chat_next_id env)) as [-> | Hne].
      { rewrite lookup_insert_eq in Hc. injection Hc as <-.
        by rewrite Hs in Hother. }
      rewrite lookup_insert_ne in Hc by done. split; [done|].
      rewrite messages_of_app, Hfilter, app_nil_r by done. done.
Qed.

(** What stands behind a 200 of [POST]. *)
Lemma POST_200 env json st text cid st' :
  POST env json st = ({| resp_status := 200; resp_json := json_reply text cid |}, st') ->
  exists uid body message c,
    chat_session env = Some (mkAuthSession uid) /\
    json = inl body /\ cb_message body = Some message /\ message <> "" /\
    conversations st' !! cid = Some c /\ ac_userId c = uid /\
    sendMessage env (history_of (messages_of cid st)) message = inl text /\
    chat_messages st' =
      (chat_messages st ++
         [ {| am_conversationId := cid; am_role := "user"; am_content := message |};
           {| am_conversationId := cid; am_role := "model"; am_content := text |} ])%list.
Proof.
  intros H.
  destruct (chat_session env) as [[uid]|] eqn:Hs;
    [|unfold POST in H; by rewrite Hs in H].
  destruct json as [body | details]; [|unfold POST in H; by rewrite Hs in H].
  destruct (cb_message body) as [message|] eqn:Hm;
    [|unfold POST in H; by rewrite Hs, Hm in H].
  destruct (decide (message = "")) as [-> | Hne];
    [unfold POST in H; by rewrite Hs, Hm in H|].
  rewrite (POST_signed_in env body message uid st) in H by done.
  destruct (named_conversation body st) as [[cid0 c]|] eqn:Hn.
  - apply named_conversation_Some in Hn as (_ & _ & Hc).
    case_bool_decide as Ho; [done|].
    destruct (answer_cases env cid0 message st)
      as [(text0 & Hsend & E) | (details & _ & E)]; rewrite E in H; [|done].
    injection H as -> -> <-. exists uid, body, message, c. by split_and!.
  - destruct (conversations st !! chat_next_id env) eqn:Hfresh; [done|].
    match type of H with context [answer env ?c ?m ?s] =>
      destruct (answer_cases env c m s)
        as [(text0 & Hsend & E) | (details & _ & E)] end;
      rewrite E in H; [|done].
    injection H as -> <- <-. eexists uid, body, message, _.
    split_and!; try done; [simpl; apply lookup_insert_eq | done].
Qed.

(** X20: a 200 of [POST] means the exchange is stored.  The caller is
    signed in and sent a non-empty message; the conversation named in the
    answer exists afterwards and belongs to the caller; the text of the
    answer is what Gemini gave for that message on the history of that
    conversation; and the store has gained exactly two messages at its end,
    the user's message and then the answer, both in that conversation. *)
Theorem POST_success_is_stored env json st text cid st' :
  POST env json st = ({| resp_status := 200; resp_json := json_reply text cid |}, st') ->
  exists message c,
    (exists body, json = inl body /\ cb_message body = Some message) /\
    message <> "" /\
    conversations st' !! cid = Some c /\
    chat_session env = Some (mkAuthSession (ac_userId c)) /\
    sendMessage env (history_of (messages_of cid st)) message = inl text /\
    chat_messages st' =
      (chat_messages st ++
         [ {| am_conversationId := cid; am_role := "user"; am_content := message |};
           {| am_conversationId := cid; am_role := "model"; am_content := text |} ])%list.
Proof.
  intros H.
  apply POST_200 in H as (uid & body & message & c & Hs & -> & Hm & Hne & Hc & Ho & Hsend & Hms).
  exists message, c. split_and!; try done; [by exists body | by rewrite Ho].
Qed.

Lemma POST_success_is_stored_witness :
  exists message c,
    (exists body,
       @inl ChatBody string {| cb_message := Some "Hello"; cb_conversationId := Some "c1" |}
         = inl body /\ cb_message body = Some message) /\
    message <> "" /\
    conversations
      (snd (POST (demo_chat_env (Some "ana") true)
              (inl {| cb_message := Some "Hello"; cb_conversationId := Some "c1" |})
              demo_chat)) !! "c1" = Some c /\
    chat_session (demo_chat_env (Some "ana") true)
      = Some (mkAuthSession (ac_userId c)) /\
    sendMessage (demo_chat_env (Some "ana") true)
      (history_of (messages_of "c1" demo_chat)) message = inl "Hi" /\
    chat_messages
      (snd (POST (demo_chat_env (Some "ana") true)
              (inl {| cb_message := Some "Hello"; cb_conversationId := Some "c1" |})
              demo_chat))
    = (chat_messages demo_chat ++
         [ {| am_conversationId := "c1"; am_role := "user"; am_content := message |};
           {| am_conversationId := "c1"; am_role := "model"; am_content := "Hi" |} ])%list.
Proof.
  apply (POST_success_is_stored (demo_chat_env (Some "ana") true)
           (inl {| cb_message := Some "Hello"; cb_conversationId := Some "c1" |})
           demo_chat "Hi" "c1").
  vm_compute. reflexivity.
Defined.

(** X21: what [POST] stored, [GET] reads back.  After a 200 of [POST], a
    [GET] by the same caller for the conversation named in the answer
    returns that conversation with the messages it had before followed by
    the user's message and the answer. *)
Theorem POST_then_GET env json st text cid st' :
  POST env json st = ({| resp_status := 200; resp_json := json_reply text cid |}, st') ->
  cid <> "" ->
  exists message c,
    (exists body, json = inl body /\ cb_message body = Some message) /\
    GET env (Some cid) st' =
      {| resp_status := 200;
         resp_json :=
           json_conversation
             (Some (cid, c,
                    (messages_of cid st ++
                       [ {| am_conversationId := cid; am_role := "user";
                            am_content := message |};
                         {| am_conversationId := cid; am_role := "model";
                            am_content := text |} ])%list)) |}.
Proof.
  intros H Hcid.
  apply POST_200 in H as (uid & body & message & c & Hs & -> & Hm & Hne & Hc & Ho & Hsend & Hms).
  exists message, c. split; [by exists body|].
  unfold GET. rewrite Hs, (truthy_Some _ Hcid). simpl. rewrite Hc. simpl.
  rewrite bool_decide_eq_false_2 by (intros Hno; by apply Hno).
  do 4 f_equal. unfold messages_of. rewrite Hms, filter_app.
  f_equal. rewrite !filter_cons_True by done. done.
Qed.

Lemma POST_then_GET_witness :
  exists message c,
    (exists body,
       @inl ChatBody string {| cb_message := Some "Hello"; cb_conversationId := None |}
         = inl body /\ cb_message body = Some message) /\
    GET (demo_chat_env (Some "bob") true) (Some "c3")
      (snd (POST (demo_chat_env (Some "bob") true)
              (inl {| cb_message := Some "Hello"; cb_conversationId := None |})
              demo_chat))
    = {| resp_status := 200;
         resp_json :=
           json_conversation
             (Some ("c3", c,
                    (messages_of "c3" demo_chat ++
                       [ {| am_conversationId := "c3"; am_role := "user";
                            am_content := message |};
                         {| am_conversationId := "c3"; am_role := "model";
                            am_content := "Hi" |} ])%list)) |}.
Proof.
  apply (POST_then_GET (demo_chat_env (Some "bob") true)
           (inl {| cb_message := Some "Hello"; cb_conversationId := None |})
           demo_chat "Hi" "c3").
  - vm_compute. reflexivity.
  - discriminate.
Defined.

Lemma length_append (s1 s2 : string) :
  String.length (s1 +:+ s2) = (String.length s1 + String.length s2)%nat.
Proof. induction s1 as [|c s1 IH]; simpl; [done | by rewrite IH]. Qed.

Lemma length_substring_0 (m : nat) (s : string) :
  String.length (String.substring 0 m s) = (m `min` String.length s)%nat.
Proof.
  revert s. induction m as [|m IH]; intros [|c s]; simpl; try done.
  by rewrite IH.
Qed.

Lemma substring_0_all (m : nat) (s : string) :
  (String.length s <= m)%nat -> String.substring 0 m s = s.
Proof.
  revert s. induction m as [|m IH]; intros [|c s]; simpl; try done.
  - lia.
  - intros H. rewrite IH; [done | lia].
Qed.

(** X22: a request that names no conversation of the store opens a new one,
    whether or not Gemini then answers.  When the caller is signed in, the
    message is not empty, and the [conversationId] is absent, empty or
    unknown, the store gains under the next id a conversation of the
    caller with the current time; for a message of ASCII characters its
    title is the first 30 characters of the message and three dots (33
    characters at most; the whole message and the dots when it has up to
    30).  If Gemini answers, the 200 carries the new id, not the one
    requested, and both messages are stored; if Gemini throws, the answer
    is 500 with the error's message and the new conversation stays behind
    without messages. *)
Theorem POST_opens_conversation env body message uid st :
  chat_session env = Some (mkAuthSession uid) ->
  cb_message body = Some message -> message <> "" ->
  (forall cid, cb_conversationId body = Some cid ->
     cid = "" \/ conversations st !! cid = None) ->
  conversations st !! chat_next_id env = None ->
  (exists title,
     conversations (snd (POST env (inl body) st))
       = <[chat_next_id env :=
             {| ac_userId := uid; ac_title := title;
                ac_updatedAt := chat_now env |}]> (conversations st) /\
     (ascii_only message = true ->
        title = String.substring 0 30 message +:+ "..." /\
        (String.length title <= 33)%nat /\
        ((String.length message <= 30)%nat -> title = message +:+ "..."))) /\
  match sendMessage env (history_of (messages_of (chat_next_id env) st)) message with
  | inl text =>
      fst (POST env (inl body) st)
        = {| resp_status := 200; resp_json := json_reply text (chat_next_id env) |} /\
      chat_messages (snd (POST env (inl body) st))
        = (chat_messages st ++
             [ {| am_conversationId := chat_next_id env; am_role := "user";
                  am_content := message |};
               {| am_conversationId := chat_next_id env; am_role := "model";
                  am_content := text |} ])%list
  | inr details =>
      fst (POST env (inl body) st) = failed details /\
      chat_messages (snd (POST env (inl body) st)) = chat_messages st
  end.
Proof.
  intros Hs Hm Hne Hunknown Hfresh.
  assert (Hn : named_conversation body st = None).
  { unfold named_conversation, truthy.
    destruct (cb_conversationId body) as [cid|] eqn:Hc; simpl; [|done].
    case_bool_decide; simpl; [done|].
    destruct (Hunknown cid eq_refl) as [-> | ->]; done. }
  rewrite (POST_signed_in env body message uid st), Hn, Hfresh by done.
  unfold answer.
  change (messages_of (chat_next_id env) _) with (messages_of (chat_next_id env) st).
  split.
  - exists (conversation_title message). split.
    + by destruct (sendMessage env _ message).
    + intros _. unfold conversation_title. split_and!.
      * done.
      * rewrite length_append, length_substring_0.
        change (String.length "...") with 3%nat.
        pose proof (Nat.le_min_l 30 (String.length message)). lia.
      * intros Hlen. by rewrite substring_0_all.
  - by destruct (sendMessage env _ message).
Qed.

Lemma POST_opens_conversation_witness :
  (exists title,
     conversations
       (snd (POST (demo_chat_env (Some "ana") false)
               (inl {| cb_message := Some "Hello"; cb_conversationId := Some "c9" |})
               demo_chat))
     = <["c3" := {| ac_userId := "ana"; ac_title := title; ac_updatedAt := 30 |}]>
         (conversations demo_chat) /\
     (ascii_only "Hello" = true ->
        title = String.substring 0 30 "Hello" +:+ "..." /\
        (String.length title <= 33)%nat /\
        ((String.length "Hello" <= 30)%nat -> title = "Hello" +:+ "..."))) /\
  fst (POST (demo_chat_env (Some "ana") false)
         (inl {| cb_message := Some "Hello"; cb_conversationId := Some "c9" |})
         demo_chat) = failed "503 Service Unavailable" /\
  chat_messages
    (snd (POST (demo_chat_env (Some "ana") false)
            (inl {| cb_message := Some "Hello"; cb_conversationId := Some "c9" |})
            demo_chat)) = chat_messages demo_chat.
Proof.
  apply (POST_opens_conversation (demo_chat_env (Some "ana") false)
           {| cb_message := Some "Hello"; cb_conversationId := Some "c9" |}
           "Hello" "ana" demo_chat).
  - reflexivity.
  - reflexivity.
  - discriminate.
  - intros cid [= <-]. right. vm_compute. reflexivity.
  - vm_compute. reflexivity.
Defined.


#[local] Instance newer_first_total : Total newer_first.
Proof. intros a b. unfold newer_first. lia. Qed.

#[local] Instance newer_first_trans : Transitive newer_first.
Proof. intros a b c. unfold newer_first. lia. Qed.

(** X24: asked for the list, [GET] returns the caller's conversations most
    recently updated first, none twice, and cut after ten: a conversation
    of the caller that is missing from the list was updated no later than
    any of the ten that are listed. *)
Theorem GET_lists_most_recent env query st uid :
  chat_session env = Some (mkAuthSession uid) ->
  truthy query = false ->
  exists l,
    GET env query st = {| resp_status := 200; resp_json := json_conversations l |} /\
    StronglySorted newer_first l /\
    NoDup l /\
    forall cid c,
      conversations st !! cid = Some c -> ac_userId c = uid ->
      (cid, c) ∈ l \/
      (length l = 10%nat /\
       Forall (fun p => ac_updatedAt c <= ac_updatedAt (snd p)) l).
Proof.
  intros Hs Hq. unfold GET. rewrite Hs, Hq. simpl.
  eexists. split; [reflexivity|]. unfold findMany.
  set (owned := filter (fun p => ac_userId (snd p) = uid)
                  (map_to_list (conversations st))).
  set (sorted := merge_sort newer_first owned).
  assert (Hsorted : StronglySorted newer_first sorted)
    by apply (StronglySorted_merge_sort _).
  assert (Hperm : sorted ≡ₚ owned) by apply merge_sort_Permutation.
  assert (Hnodup : NoDup sorted).
  { rewrite Hperm. apply NoDup_filter, NoDup_map_to_list. }
  rewrite <- (take_drop 10 sorted) in Hsorted, Hnodup.
  split_and!.
  - by apply StronglySorted_app_1_l in Hsorted.
  - by apply NoDup_app in Hnodup as (? & _).
  - intros cid c Hc Ho.
    assert (Hin : (cid, c) ∈ sorted).
    { rewrite Hperm. apply list_elem_of_filter. split; [done|].
      by apply elem_of_map_to_list. }
    rewrite <- (take_drop 10 sorted) in Hin.
    apply elem_of_app in Hin as [Hin | Hin]; [by left | right].
    split.
    + rewrite length_take. apply list_elem_of_lookup in Hin as (i & Hi).
      apply lookup_lt_Some in Hi. rewrite length_drop in Hi. lia.
    + apply Forall_forall. intros p Hp.
      apply (StronglySorted_app_1_elem_of _ _ _ p (cid, c) Hsorted Hp Hin).
Qed.

Lemma GET_lists_most_recent_witness :
  exists l,
    GET (demo_chat_env (Some "ana") true) None demo_chat
      = {| resp_status := 200; resp_json := json_conversations l |} /\
    StronglySorted newer_first l /\
    NoDup l /\
    forall cid c,
      conversations demo_chat !! cid = Some c -> ac_userId c = "ana" ->
      (cid, c) ∈ l \/
      (length l = 10%nat /\
       Forall (fun p => ac_updatedAt c <= ac_updatedAt (snd p)) l).
Proof.
  apply (GET_lists_most_recent (demo_chat_env (Some "ana") true) None demo_chat "ana").
  - reflexivity.
  - reflexivity.
Defined.
